(** * Session store of the application: AuthContext.tsx

    A shallow embedding of [src/contexts/AuthContext.tsx] (the React context
    that caches the signed-in user, the session, the remote profile row and a
    loading flag) together with the properties its specification states.

    The component is asynchronous glue around a hosted identity/database
    client.  Every function of the source is embedded as a small effect tree
    ([Async]): state writes, reads of the effect's [mounted] flag, and awaits
    of remote calls are explicit nodes, so that the same definition can be run
    to completion against a remote ([exec]) or stepped by a scheduler that
    interleaves session-change events with late replies ([step]).

    The repository holds an earlier revision of the same file without the
    [console.log] lines; its state writes, remote calls and throws are the
    ones embedded here. *)

From stdpp Require Import base option list strings.

Open Scope string_scope.
Open Scope list_scope.

(** ** Data model *)

(** [User] and [Session] come from the client library; the store only reads
    [user.id] and [session.user].  The source tests [session?.user], so the
    user of a session is kept nullable. *)
Record User := mkUser { user_id : string }.

Record Session := mkSession {
  access_token : string;
  user : option User;
}.

(** [UserProfile] of [types/Tool]: the fields the store reads and writes. *)
Record UserProfile := mkUserProfile {
  username : string;
  email : string;
  phone : string;
  job : string;
  interests : list string;
  favorites : list string;
  isPaid : bool;
}.

(** [Omit<UserProfile, 'favorites' | 'isPaid'>], the payload of [signup]. *)
Record ProfileInput := mkProfileInput {
  in_username : string;
  in_email : string;
  in_phone : string;
  in_job : string;
  in_interests : list string;
}.

(** A row of the remote table [user_profiles].  The columns the source
    defaults with [||] are nullable. *)
Record Row := mkRow {
  row_user_id : string;
  row_username : string;
  row_email : string;
  row_phone : option string;
  row_job : string;
  row_interests : option (list string);
  row_favorites : option (list string);
  row_is_paid : option bool;
}.

Record AuthError := mkAuthError { auth_message : string }.
Record PostgrestError := mkPostgrestError { code : string; message : string }.

(** Values that can be thrown or be the reason of a rejected promise. *)
Inductive Exn :=
| AuthErr (e : AuthError)
| PgErr (e : PostgrestError)
| JsErr (msg : string).

(** ** The four [useState] cells *)

Record Store := mkStore {
  currentUser : option User;
  userProfile : option UserProfile;
  session : option Session;
  loading : bool;
}.

(** [useState(null)], [useState(null)], [useState(null)], [useState(true)]. *)
Definition initial_store : Store :=
  {| currentUser := None; userProfile := None; session := None; loading := true |}.

Inductive StateWrite :=
| setCurrentUser (u : option User)
| setUserProfile (p : option UserProfile)
| setSession (s : option Session)
| setLoading (b : bool).

Definition write (w : StateWrite) (st : Store) : Store :=
  match w with
  | setCurrentUser u =>
      {| currentUser := u; userProfile := userProfile st;
         session := session st; loading := loading st |}
  | setUserProfile p =>
      {| currentUser := currentUser st; userProfile := p;
         session := session st; loading := loading st |}
  | setSession s =>
      {| currentUser := currentUser st; userProfile := userProfile st;
         session := s; loading := loading st |}
  | setLoading b =>
      {| currentUser := currentUser st; userProfile := userProfile st;
         session := session st; loading := b |}
  end.

(** ** Remote calls *)

(** What each awaited client call resolves to. *)
Record SessionReply := mkSessionReply {
  reply_session : option Session;          (* data.session *)
  session_error : option AuthError;
}.
Record SignUpReply := mkSignUpReply {
  reply_user : option User;                (* data.user *)
  signup_error : option AuthError;
}.
Record AuthReply := mkAuthReply { auth_error : option AuthError }.
Record SingleReply := mkSingleReply {
  data : option Row;
  error : option PostgrestError;
}.
Record WriteReply := mkWriteReply { write_error : option PostgrestError }.

(** The client calls the source makes, indexed by the shape of their reply. *)
Inductive Call : Type -> Type :=
| auth_getSession : Call SessionReply
| auth_signUp (email password : string) : Call SignUpReply
| auth_signInWithPassword (email password : string) : Call AuthReply
| auth_signOut : Call AuthReply
| profiles_select_single (uid : string) : Call SingleReply
| profiles_insert (row : Row) : Call WriteReply
| profiles_update_favorites (favs : list string) (uid : string) : Call WriteReply
| profiles_update_is_paid (paid : bool) (uid : string) : Call WriteReply.

(** A call of any reply shape, for logs of the calls made. *)
Inductive SomeCall : Type :=
| some_call : forall R : Type, Call R -> SomeCall.
Arguments some_call {R} c.

(** A promise settles: it is fulfilled with a reply or rejected. *)
Inductive Settled (R : Type) :=
| Fulfilled (r : R)
| Rejected (e : Exn).
Arguments Fulfilled {R} r.
Arguments Rejected {R} e.

(** The remote service, as far as the store can see it. *)
Definition Remote := forall R : Type, Call R -> Settled R.

(** ** Asynchronous functions as effect trees *)

(** [console.log] and [console.error]. *)
Inductive Level := log | err.

Inductive Async (A : Type) : Type :=
| Return (a : A)
| Throw (e : Exn)
| Suspend {R : Type} (c : Call R) (k : Settled R -> Async A)
| SetState (w : StateWrite) (k : Async A)
| ReadMounted (k : bool -> Async A)
| Console (l : Level) (msg : string) (k : Async A).
Arguments Return {A} a.
Arguments Throw {A} e.
Arguments Suspend {A R} c k.
Arguments SetState {A} w k.
Arguments ReadMounted {A} k.
Arguments Console {A} l msg k.

(** [await c]: suspend on the call; a rejection is thrown at the await. *)
Definition await {R : Type} (c : Call R) : Async R :=
  Suspend c (fun o => match o with
                      | Fulfilled r => Return r
                      | Rejected e => Throw e
                      end).

Fixpoint bind {A B : Type} (p : Async A) (f : A -> Async B) : Async B :=
  match p with
  | Return a => f a
  | Throw e => Throw e
  | Suspend c k => Suspend c (fun o => bind (k o) f)
  | SetState w k => SetState w (bind k f)
  | ReadMounted k => ReadMounted (fun b => bind (k b) f)
  | Console l msg k => Console l msg (bind k f)
  end.

(** [try { p } catch (e) { h e }] *)
Fixpoint try_catch {A : Type} (p : Async A) (h : Exn -> Async A) : Async A :=
  match p with
  | Return a => Return a
  | Throw e => h e
  | Suspend c k => Suspend c (fun o => try_catch (k o) h)
  | SetState w k => SetState w (try_catch k h)
  | ReadMounted k => ReadMounted (fun b => try_catch (k b) h)
  | Console l msg k => Console l msg (try_catch k h)
  end.

(** [try { p } finally { f }]: [f] runs on return and on throw alike. *)
Fixpoint try_finally {A : Type} (p : Async A) (f : Async unit) : Async A :=
  match p with
  | Return a => bind f (fun _ => Return a)
  | Throw e => bind f (fun _ => Throw e)
  | Suspend c k => Suspend c (fun o => try_finally (k o) f)
  | SetState w k => SetState w (try_finally k f)
  | ReadMounted k => ReadMounted (fun b => try_finally (k b) f)
  | Console l msg k => Console l msg (try_finally k f)
  end.

(** stdpp's monad notations: [x ← p; q] and [p ;; q]. *)
#[global] Instance Async_ret : MRet Async := fun A a => Return a.
#[global] Instance Async_bind : MBind Async := fun A B f p => bind p f.

Definition set_state (w : StateWrite) : Async unit := SetState w (Return tt).
Definition read_mounted : Async bool := ReadMounted Return.
Definition console (l : Level) (msg : string) : Async unit := Console l msg (Return tt).
Definition skip : Async unit := Return tt.

(** ** The source functions *)

(** The mapping of a fetched row to the cached profile (source lines
    116-124); [x || d] on a nullable column is [default d x]. *)
Definition profile_of_row (d : Row) : UserProfile :=
  {| username := row_username d;
     email := row_email d;
     phone := default "" (row_phone d);
     job := row_job d;
     interests := default [] (row_interests d);
     favorites := default [] (row_favorites d);
     isPaid := default false (row_is_paid d) |}.

(** [fetchUserProfile]: try / catch / finally around one awaited select. *)
Definition fetchUserProfile (userId : string) : Async unit :=
  console log "[Profile] Fetching user profile for:";;
  try_finally
    (try_catch
       (r ← await (profiles_select_single userId);
        match error r with
        | Some e =>
            (if decide (code e = "PGRST116")
             then console log "[Profile] No user profile found - likely a new user"
             else console err "[Profile] Error fetching profile:");;
            set_state (setUserProfile None)
            (* return *)
        | None =>
            console log "[Profile] Profile data:";;
            match data r with
            | Some d => set_state (setUserProfile (Some (profile_of_row d)))
            | None => set_state (setUserProfile None)
            end
        end)
       (fun _ =>
          console err "[Profile] Unexpected error:";;
          set_state (setUserProfile None)))
    (set_state (setLoading false);;
     console log "[Auth] Loading set to false").

(** [initializeAuth], the first half of the effect. *)
Definition initializeAuth : Async unit :=
  console log "[Auth] Initializing...";;
  r ← await auth_getSession;
  match session_error r with
  | Some _ =>
      console err "[Auth] Error getting session:";;
      mounted ← read_mounted;
      if mounted : bool then set_state (setLoading false) else skip
      (* return *)
  | None =>
      console log "[Auth] Initial session:";;
      mounted ← read_mounted;
      if mounted : bool then
        set_state (setSession (reply_session r));;
        set_state (setCurrentUser (reply_session r ≫= user));;
        match reply_session r ≫= user with
        | Some u =>
            console log "[Auth] Fetching profile...";;
            fetchUserProfile (user_id u)
        | None =>
            console log "[Auth] No user in session";;
            set_state (setLoading false)
        end
      else skip
  end.

(** The callback given to [supabase.auth.onAuthStateChange]. *)
Definition onAuthStateChange (sess : option Session) : Async unit :=
  console log "[Auth] Auth state changed";;
  mounted ← read_mounted;
  if negb mounted then skip (* return *) else
  set_state (setSession sess);;
  set_state (setCurrentUser (sess ≫= user));;
  match sess ≫= user with
  | Some u =>
      console log "[Auth] User signed in, fetching profile...";;
      fetchUserProfile (user_id u)
  | None =>
      console log "[Auth] User signed out";;
      set_state (setUserProfile None);;
      set_state (setLoading false)
  end.

Definition signup (email password : string) (profile : ProfileInput) : Async unit :=
  console log "[Auth] Signing up...";;
  r ← await (auth_signUp email password);
  match signup_error r with
  | Some e =>
      console err "[Auth] Signup error:";;
      Throw (AuthErr e)
  | None =>
      match reply_user r with
      | Some u =>
          w ← await (profiles_insert
                       {| row_user_id := user_id u;
                          row_username := in_username profile;
                          row_email := in_email profile;
                          row_phone := Some (in_phone profile);
                          row_job := in_job profile;
                          row_interests := Some (in_interests profile);
                          row_favorites := Some [];
                          row_is_paid := Some false |});
          match write_error w with
          | Some e =>
              console err "[Auth] Error creating profile:";;
              Throw (PgErr e)
          | None => console log "[Auth] User profile created"
          end
      | None => skip
      end
  end.

Definition login (email password : string) : Async unit :=
  console log "[Auth] Logging in...";;
  r ← await (auth_signInWithPassword email password);
  match auth_error r with
  | Some e =>
      console err "[Auth] Login error:";;
      Throw (AuthErr e)
  | None => console log "[Auth] Login successful"
  end.

Definition logout : Async unit :=
  console log "[Auth] Logging out...";;
  r ← await auth_signOut;
  match auth_error r with
  | Some e =>
      console err "[Auth] Logout error:";;
      Throw (AuthErr e)
  | None => console log "[Auth] Logged out"
  end.

(** [Array.prototype.includes] on an array of strings: a left-to-right scan
    for an element equal to [x]. *)
Fixpoint includes (l : list string) (x : string) : bool :=
  match l with
  | [] => false
  | y :: l' => if decide (y = x) then true else includes l' x
  end.

(** [{ ...userProfile, favorites: newFavorites }] *)
Definition with_favorites (p : UserProfile) (newFavorites : list string) : UserProfile :=
  {| username := username p; email := email p; phone := phone p; job := job p;
     interests := interests p; favorites := newFavorites; isPaid := isPaid p |}.

(** [{ ...userProfile, isPaid }] *)
Definition with_isPaid (p : UserProfile) (paid : bool) : UserProfile :=
  {| username := username p; email := email p; phone := phone p; job := job p;
     interests := interests p; favorites := favorites p; isPaid := paid |}.

(** The list [toggleFavorite] computes (source lines 206-209). *)
Definition newFavorites (favorites : list string) (toolId : string) : list string :=
  if includes favorites toolId
  then filter (fun id => id ≠ toolId) favorites
  else favorites ++ [toolId].

(** [toggleFavorite] and [updateSubscription] are closures of a render: they
    read [currentUser] and [userProfile] of the render [st] that created
    them, also after their await. *)
Definition toggleFavorite (st : Store) (toolId : string) : Async unit :=
  match currentUser st, userProfile st with
  | Some cu, Some up =>
      let favs := newFavorites (favorites up) toolId in
      r ← await (profiles_update_favorites favs (user_id cu));
      match write_error r with
      | Some e =>
          console err "[Profile] Error updating favorites:";;
          Throw (PgErr e)
      | None =>
          set_state (setUserProfile (Some (with_favorites up favs)));;
          console log "[Profile] Favorites updated"
      end
  | _, _ => skip (* return *)
  end.

Definition updateSubscription (st : Store) (paid : bool) : Async unit :=
  match currentUser st, userProfile st with
  | Some cu, Some up =>
      r ← await (profiles_update_is_paid paid (user_id cu));
      match write_error r with
      | Some e =>
          console err "[Profile] Error updating subscription:";;
          Throw (PgErr e)
      | None =>
          set_state (setUserProfile (Some (with_isPaid up paid)));;
          console log "[Profile] Subscription updated"
      end
  | _, _ => skip (* return *)
  end.

(** ** The context and its accessor *)

Record AuthContextType := mkAuthContext {
  ctx_currentUser : option User;
  ctx_userProfile : option UserProfile;
  ctx_session : option Session;
  ctx_signup : string -> string -> ProfileInput -> Async unit;
  ctx_login : string -> string -> Async unit;
  ctx_logout : Async unit;
  ctx_toggleFavorite : string -> Async unit;
  ctx_updateSubscription : bool -> Async unit;
  ctx_loading : bool;
}.

(** The [value] a render of [AuthProvider] with state [st] provides. *)
Definition AuthProvider_value (st : Store) : AuthContextType :=
  {| ctx_currentUser := currentUser st;
     ctx_userProfile := userProfile st;
     ctx_session := session st;
     ctx_signup := signup;
     ctx_login := login;
     ctx_logout := logout;
     ctx_toggleFavorite := toggleFavorite st;
     ctx_updateSubscription := updateSubscription st;
     ctx_loading := loading st |}.

(** [useContext(AuthContext)]: the value of the nearest enclosing provider
    ([providers] lists the enclosing [AuthContext.Provider] values, nearest
    first), or the default given to [createContext], which is [undefined]. *)
Definition useContext (providers : list AuthContextType) : option AuthContextType :=
  head providers.

(** How a synchronous or awaited call ends. *)
Inductive Completion (A : Type) :=
| Returned (a : A)
| Threw (e : Exn).
Arguments Returned {A} a.
Arguments Threw {A} e.

Definition useAuth (providers : list AuthContextType) : Completion AuthContextType :=
  match useContext providers with
  | None => Threw (JsErr "useAuth must be used within an AuthProvider")
  | Some context => Returned context
  end.

(** ** Running one call to completion *)

(** What a caller that awaits the call to its end observes: the store
    afterwards, how the call completed, the remote calls it made and the
    console lines it printed, both in order. *)
Record Run (A : Type) := mkRun {
  final : Store;
  completion : Completion A;
  calls : list SomeCall;
  printed : list (Level * string);
}.
Arguments mkRun {A} final completion calls printed.
Arguments final {A} r.
Arguments completion {A} r.
Arguments calls {A} r.
Arguments printed {A} r.

(** [exec remote mounted p st]: run [p] from store [st]; every await is
    answered at once by [remote]; [mounted] is the liveness flag of the
    effect, which nothing changes during the run. *)
Fixpoint exec {A : Type} (remote : Remote) (mounted : bool) (p : Async A) (st : Store) : Run A :=
  match p with
  | Return a => mkRun st (Returned a) [] []
  | Throw e => mkRun st (Threw e) [] []
  | Suspend c k =>
      let r := exec remote mounted (k (remote _ c)) st in
      mkRun (final r) (completion r) (some_call c :: calls r) (printed r)
  | SetState w k => exec remote mounted k (write w st)
  | ReadMounted k => exec remote mounted (k mounted) st
  | Console l msg k =>
      let r := exec remote mounted k st in
      mkRun (final r) (completion r) (calls r) ((l, msg) :: printed r)
  end.

(** ** The effect as a transition system *)

(** A call in flight: the request and the code waiting for its reply. *)
Inductive Pending : Type :=
| pending : forall R : Type, Call R -> (Settled R -> Async unit) -> Pending.
Arguments pending {R} c k.

(** The store, the [mounted] variable of the effect, whether the callback is
    still subscribed, and the calls in flight.  [journal] is ghost state: every
    state write made so far, with the value [mounted] had when it was made. *)
Record World := mkWorld {
  store : Store;
  mounted : bool;
  subscribed : bool;
  inflight : list Pending;
  journal : list (bool * StateWrite);
}.

(** Run a piece of code until it returns, throws, or suspends on an await. *)
Fixpoint advance (p : Async unit) (w : World) : World :=
  match p with
  | Return _ => w
  | Throw _ => w          (* an unhandled rejection: nobody awaits the handlers *)
  | Suspend c k =>
      mkWorld (store w) (mounted w) (subscribed w) (inflight w ++ [pending c k]) (journal w)
  | SetState x k =>
      advance k (mkWorld (write x (store w)) (mounted w) (subscribed w) (inflight w)
                         (journal w ++ [(mounted w, x)]))
  | ReadMounted k => advance (k (mounted w)) w
  | Console _ _ k => advance k w
  end.

(** The world once the effect body has run: [mounted = true], [initializeAuth]
    is suspended on [getSession], and the callback is subscribed. *)
Definition mount : World :=
  let w := advance initializeAuth (mkWorld initial_store true false [] []) in
  mkWorld (store w) (mounted w) true (inflight w) (journal w).

Inductive Event :=
| AuthStateChange (sess : option Session)   (* the provider emits a session change *)
| Settle (i : nat) (remote : Remote)        (* the i-th call in flight settles *)
| Teardown.                                 (* the cleanup of the effect runs *)

Definition step (w : World) (ev : Event) : World :=
  match ev with
  | AuthStateChange sess =>
      if subscribed w then advance (onAuthStateChange sess) w else w
  | Settle i remote =>
      match inflight w !! i with
      | Some (pending c k) =>
          advance (k (remote _ c))
                  (mkWorld (store w) (mounted w) (subscribed w) (delete i (inflight w)) (journal w))
      | None => w
      end
  | Teardown => mkWorld (store w) false false (inflight w) (journal w)
  end.

Definition run (tr : list Event) (w : World) : World := foldl step w tr.

(** No call is in flight: every handler started so far has settled. *)
Definition quiescent (w : World) : Prop := inflight w = [].


(** ** Concrete remotes *)

(** One answer per kind of call; [serve] makes a remote of them. *)
Record Service := mkService {
  on_getSession : Settled SessionReply;
  on_signUp : string -> string -> Settled SignUpReply;
  on_signIn : string -> string -> Settled AuthReply;
  on_signOut : Settled AuthReply;
  on_select : string -> Settled SingleReply;
  on_insert : Row -> Settled WriteReply;
  on_update_favorites : list string -> string -> Settled WriteReply;
  on_update_is_paid : bool -> string -> Settled WriteReply;
}.

Definition serve (s : Service) : Remote :=
  fun R c =>
    match c in Call R0 return Settled R0 with
    | auth_getSession => on_getSession s
    | auth_signUp e p => on_signUp s e p
    | auth_signInWithPassword e p => on_signIn s e p
    | auth_signOut => on_signOut s
    | profiles_select_single uid => on_select s uid
    | profiles_insert row => on_insert s row
    | profiles_update_favorites favs uid => on_update_favorites s favs uid
    | profiles_update_is_paid paid uid => on_update_is_paid s paid uid
    end.

(** A service on which nobody is signed in, no row exists (select answers
    with the no-rows error) and every write succeeds. *)
Definition no_rows : PostgrestError :=
  {| code := "PGRST116"; message := "JSON object requested, multiple (or no) rows returned" |}.

Definition empty_service : Service :=
  {| on_getSession := Fulfilled (mkSessionReply None None);
     on_signUp := fun _ _ => Fulfilled (mkSignUpReply None None);
     on_signIn := fun _ _ => Fulfilled (mkAuthReply None);
     on_signOut := Fulfilled (mkAuthReply None);
     on_select := fun _ => Fulfilled (mkSingleReply None (Some no_rows));
     on_insert := fun _ => Fulfilled (mkWriteReply None);
     on_update_favorites := fun _ _ => Fulfilled (mkWriteReply None);
     on_update_is_paid := fun _ _ => Fulfilled (mkWriteReply None) |}.

(** The same service with one row in the table. *)
Definition service_with_row (row : Row) : Service :=
  {| on_getSession := on_getSession empty_service;
     on_signUp := on_signUp empty_service;
     on_signIn := on_signIn empty_service;
     on_signOut := on_signOut empty_service;
     on_select := fun uid =>
       if decide (uid = row_user_id row)
       then Fulfilled (mkSingleReply (Some row) None)
       else on_select empty_service uid;
     on_insert := on_insert empty_service;
     on_update_favorites := on_update_favorites empty_service;
     on_update_is_paid := on_update_is_paid empty_service |}.

(** The same service with every write to the table failing with [e]. *)
Definition service_failing_writes (e : PostgrestError) : Service :=
  {| on_getSession := on_getSession empty_service;
     on_signUp := on_signUp empty_service;
     on_signIn := on_signIn empty_service;
     on_signOut := on_signOut empty_service;
     on_select := on_select empty_service;
     on_insert := fun _ => Fulfilled (mkWriteReply (Some e));
     on_update_favorites := fun _ _ => Fulfilled (mkWriteReply (Some e));
     on_update_is_paid := fun _ _ => Fulfilled (mkWriteReply (Some e)) |}.

(** A service that signs [u] up and stores what is inserted. *)
Definition signup_service (u : User) : Service :=
  {| on_getSession := on_getSession empty_service;
     on_signUp := fun _ _ => Fulfilled (mkSignUpReply (Some u) None);
     on_signIn := on_signIn empty_service;
     on_signOut := on_signOut empty_service;
     on_select := on_select empty_service;
     on_insert := on_insert empty_service;
     on_update_favorites := on_update_favorites empty_service;
     on_update_is_paid := on_update_is_paid empty_service |}.

(** Sample data. *)
Definition quota_exceeded : PostgrestError :=
  {| code := "53400"; message := "quota exceeded" |}.
Definition alice : User := {| user_id := "u1" |}.
Definition alice_session : Session := {| access_token := "tok"; user := Some alice |}.
Definition alice_row : Row :=
  {| row_user_id := "u1"; row_username := "alice"; row_email := "alice@x.com";
     row_phone := None; row_job := "dev"; row_interests := None;
     row_favorites := Some ["t1"; "t2"]; row_is_paid := None |}.
Definition profile_with (favs : list string) : UserProfile :=
  {| username := "alice"; email := "alice@x.com"; phone := ""; job := "dev";
     interests := []; favorites := favs; isPaid := false |}.
Definition signed_in (favs : list string) : Store :=
  {| currentUser := Some alice; userProfile := Some (profile_with favs);
     session := Some alice_session; loading := false |}.

(** A service on which [alice] is signed in and has her row. *)
Definition alice_service : Service :=
  {| on_getSession := Fulfilled (mkSessionReply (Some alice_session) None);
     on_signUp := on_signUp empty_service;
     on_signIn := on_signIn empty_service;
     on_signOut := on_signOut empty_service;
     on_select := on_select (service_with_row alice_row);
     on_insert := on_insert empty_service;
     on_update_favorites := on_update_favorites empty_service;
     on_update_is_paid := on_update_is_paid empty_service |}.

(** ** Vocabulary of the statements *)

(** The toggle as the specification words it: remove the id if it is
    present, else append it. *)
Fixpoint without (toolId : string) (l : list string) : list string :=
  match l with
  | [] => []
  | y :: l' => if decide (y = toolId) then without toolId l' else y :: without toolId l'
  end.

Definition spec_toggle (l : list string) (toolId : string) : list string :=
  if decide (toolId ∈ l) then without toolId l else l ++ [toolId].

(** How often [x] occurs in [l]. *)
Definition occurrences (x : string) (l : list string) : nat :=
  length (filter (fun y => y = x) l).

(** The one remote call of [toggleFavorite] for user [cu] and cached profile
    [up], and the one of [updateSubscription]. *)
Definition favorites_call (cu : User) (up : UserProfile) (toolId : string) : Call WriteReply :=
  profiles_update_favorites (newFavorites (favorites up) toolId) (user_id cu).

Definition subscription_call (cu : User) (paid : bool) : Call WriteReply :=
  profiles_update_is_paid paid (user_id cu).

(** The remote confirms every write of a favorites list. *)
Definition favorites_writes_succeed (remote : Remote) : Prop :=
  forall favs uid,
    remote _ (profiles_update_favorites favs uid) = Fulfilled (mkWriteReply None).

(** A write call fails: the reply carries an error, or the promise rejects.
    [exn] is what the failure hands to the code. *)
Definition write_fails (remote : Remote) (c : Call WriteReply) (exn : Exn) : Prop :=
  (exists e, remote _ c = Fulfilled (mkWriteReply (Some e)) /\ exn = PgErr e)
  \/ remote _ c = Rejected exn.

(** [toggleFavorite(X)] twice in a row, each call awaited to its end; the
    second call is the closure of the render that follows the first. *)
Definition toggle_twice (remote1 remote2 : Remote) (st : Store) (toolId : string) : Store :=
  let st1 := final (exec remote1 true (toggleFavorite st toolId) st) in
  final (exec remote2 true (toggleFavorite st1 toolId) st1).

(** A call in flight whose continuation behaves as the one of
    [fetchUserProfile]: whatever the reply, it writes the profile, then
    [loading = false], and suspends no more. *)
Definition fetch_like (p : Pending) : Prop :=
  match p with
  | pending c k =>
      forall o w, exists x,
        store (advance (k o) w) = write (setLoading false) (write (setUserProfile x) (store w))
        /\ mounted (advance (k o) w) = mounted w
        /\ subscribed (advance (k o) w) = subscribed w
        /\ inflight (advance (k o) w) = inflight w
  end.

(** The row [signup] inserts for the new user [u] (source lines 156-165). *)
Definition signup_row (u : User) (profile : ProfileInput) : Row :=
  {| row_user_id := user_id u;
     row_username := in_username profile;
     row_email := in_email profile;
     row_phone := Some (in_phone profile);
     row_job := in_job profile;
     row_interests := Some (in_interests profile);
     row_favorites := Some [];
     row_is_paid := Some false |}.




(** The remote calls and state writes of a run to completion, in the order
    in which they are made. *)
Inductive Action :=
| Called (c : SomeCall)
| Wrote (w : StateWrite).

Fixpoint history {A : Type} (remote : Remote) (m : bool) (p : Async A) : list Action :=
  match p with
  | Return _ => []
  | Throw _ => []
  | Suspend c k => Called (some_call c) :: history remote m (k (remote _ c))
  | SetState w k => Wrote w :: history remote m k
  | ReadMounted k => history remote m (k m)
  | Console _ _ k => history remote m k
  end.

(** A service on which only the writes of a favorites list fail, and one on
    which only the writes of the paid flag fail. *)
Definition service_failing_favorites (e : PostgrestError) : Service :=
  {| on_getSession := on_getSession empty_service;
     on_signUp := on_signUp empty_service;
     on_signIn := on_signIn empty_service;
     on_signOut := on_signOut empty_service;
     on_select := on_select empty_service;
     on_insert := on_insert empty_service;
     on_update_favorites := fun _ _ => Fulfilled (mkWriteReply (Some e));
     on_update_is_paid := on_update_is_paid empty_service |}.

Definition service_failing_subscription (e : PostgrestError) : Service :=
  {| on_getSession := on_getSession empty_service;
     on_signUp := on_signUp empty_service;
     on_signIn := on_signIn empty_service;
     on_signOut := on_signOut empty_service;
     on_select := on_select empty_service;
     on_insert := on_insert empty_service;
     on_update_favorites := on_update_favorites empty_service;
     on_update_is_paid := fun _ _ => Fulfilled (mkWriteReply (Some e)) |}.

(** The payload of the signup scenario of the specification. *)
Definition sample_input : ProfileInput :=
  {| in_username := "a"; in_email := "e@x.com"; in_phone := "";
     in_job := "j"; in_interests := ["x"] |}.

(** ** Vocabulary of the further properties *)

(** A second user, with no row. *)
Definition bob : User := {| user_id := "u2" |}.
Definition bob_session : Session := {| access_token := "tok2"; user := Some bob |}.

(** The remote confirms every write of the paid flag. *)
Definition subscription_writes_succeed (remote : Remote) : Prop :=
  forall paid uid,
    remote _ (profiles_update_is_paid paid uid) = Fulfilled (mkWriteReply None).

(** The cached user is the user of the cached session. *)
Definition user_matches_session (st : Store) : Prop :=
  currentUser st = session st ≫= user.

(** The ways one piece of handler code changes the four cells between two
    suspension points: nothing; [loading] cleared; a profile written and
    [loading] cleared; session and user adopted; the same with [loading]
    cleared; the same with the profile dropped as well. *)
Inductive store_change (st : Store) : Store -> Prop :=
| change_none : store_change st st
| change_loading : store_change st (write (setLoading false) st)
| change_profile x :
    store_change st (write (setLoading false) (write (setUserProfile x) st))
| change_session s :
    store_change st (write (setCurrentUser (s ≫= user)) (write (setSession s) st))
| change_session_loading s :
    store_change st (write (setLoading false)
                       (write (setCurrentUser (s ≫= user)) (write (setSession s) st)))
| change_signed_out s :
    store_change st (write (setLoading false)
                       (write (setUserProfile None)
                          (write (setCurrentUser (s ≫= user)) (write (setSession s) st)))).

(** What running a piece of handler code does to a world [w], giving [w']:
    the flags are kept, at most one profile fetch is added to the calls in
    flight, the store changes in one of the ways above, and when the effect
    is no longer mounted only a late profile reply changes it. *)
Definition effect (w w' : World) : Prop :=
  mounted w' = mounted w
  /\ subscribed w' = subscribed w
  /\ (inflight w' = inflight w
      \/ exists p, fetch_like p /\ inflight w' = inflight w ++ [p])
  /\ store_change (store w) (store w')
  /\ (mounted w = false ->
      store w' = store w
      \/ exists x, store w' = write (setLoading false) (write (setUserProfile x) (store w))).

(** A call in flight whose continuation has such an effect, whatever the
    reply and the world it is resumed in. *)
Definition tame (p : Pending) : Prop :=
  match p with
  | pending c k => forall o w, effect w (advance (k o) w)
  end.

(** * Properties *)

(** ** Lists of favorites *)

Lemma includes_elem_of (l : list string) (x : string) :
  includes l x = true <-> x ∈ l.
Proof.
  induction l as [|y l IH]; simpl.
  - split; [discriminate | intros H; inversion H].
  - rewrite elem_of_cons. destruct (decide (y = x)) as [->|Hne].
    + split; auto.
    + rewrite IH. split; [auto | intros [E|H]; [congruence | exact H]].
Qed.

Lemma includes_false (l : list string) (x : string) :
  includes l x = false <-> x ∉ l.
Proof.
  rewrite <- includes_elem_of. destruct (includes l x); split; congruence.
Qed.

Lemma without_filter (l : list string) (x : string) :
  without x l = filter (fun id => id ≠ x) l.
Proof.
  induction l as [|y l IH]; simpl; [reflexivity|].
  destruct (decide (y = x)) as [->|Hne].
  - rewrite filter_cons_False by (intros H; apply H; reflexivity). exact IH.
  - rewrite filter_cons_True by exact Hne. f_equal. exact IH.
Qed.

Lemma newFavorites_spec (l : list string) (x : string) :
  newFavorites l x = spec_toggle l x.
Proof.
  unfold newFavorites, spec_toggle.
  destruct (decide (x ∈ l)) as [Hin|Hnin].
  - apply includes_elem_of in Hin. rewrite Hin. symmetry. apply without_filter.
  - apply includes_false in Hnin. rewrite Hnin. reflexivity.
Qed.

Lemma filter_ne_id (l : list string) (x : string) :
  x ∉ l -> filter (fun id => id ≠ x) l = l.
Proof.
  induction l as [|y l IH]; intros Hnin; [reflexivity|].
  apply not_elem_of_cons in Hnin as [Hne Hnin].
  rewrite filter_cons_True by congruence. f_equal. auto.
Qed.

Lemma newFavorites_elem_of (l : list string) (x y : string) :
  y ∈ newFavorites l x <-> (y ≠ x /\ y ∈ l) \/ (y = x /\ x ∉ l).
Proof.
  unfold newFavorites. destruct (includes l x) eqn:E.
  - apply includes_elem_of in E. rewrite list_elem_of_filter. tauto.
  - apply includes_false in E. rewrite elem_of_app, list_elem_of_singleton.
    split.
    + intros [H | ->]; [left; split; [congruence | exact H] | right; auto].
    + intros [[_ H]|[-> _]]; auto.
Qed.

Lemma newFavorites_twice (l : list string) (x : string) :
  newFavorites (newFavorites l x) x =
  if decide (x ∈ l) then filter (fun id => id ≠ x) l ++ [x] else l.
Proof.
  destruct (decide (x ∈ l)) as [Hin|Hnin].
  - assert (Hout : x ∉ newFavorites l x).
    { rewrite newFavorites_elem_of. tauto. }
    unfold newFavorites at 1. apply includes_false in Hout. rewrite Hout.
    unfold newFavorites. apply includes_elem_of in Hin. rewrite Hin. reflexivity.
  - assert (Hout : x ∈ newFavorites l x).
    { rewrite newFavorites_elem_of. tauto. }
    unfold newFavorites at 1. apply includes_elem_of in Hout. rewrite Hout.
    unfold newFavorites. pose proof Hnin as Hf. apply includes_false in Hf. rewrite Hf.
    rewrite filter_app, filter_ne_id by exact Hnin.
    rewrite filter_cons_False by (intros H; apply H; reflexivity).
    rewrite filter_nil. apply app_nil_r.
Qed.

Lemma occurrences_app (x : string) (l k : list string) :
  occurrences x (l ++ k) = occurrences x l + occurrences x k.
Proof. unfold occurrences. rewrite filter_app. apply length_app. Qed.

Lemma occurrences_filter_ne (x y : string) (l : list string) :
  occurrences y (filter (fun id => id ≠ x) l) =
  if decide (y = x) then 0 else occurrences y l.
Proof.
  unfold occurrences. induction l as [|z l IH]; simpl.
  - destruct (decide (y = x)); reflexivity.
  - destruct (decide (z = x)) as [->|Hzx].
    + rewrite filter_cons_False by (intros H; apply H; reflexivity).
      rewrite IH. destruct (decide (y = x)) as [->|Hyx]; [reflexivity|].
      rewrite (filter_cons_False (fun v => v = y)) by congruence. reflexivity.
    + rewrite filter_cons_True by exact Hzx.
      destruct (decide (z = y)) as [->|Hzy].
      * rewrite !(filter_cons_True (fun v => v = y)) by reflexivity. simpl.
        rewrite IH. destruct (decide (y = x)); [contradiction | reflexivity].
      * rewrite !(filter_cons_False (fun v => v = y)) by exact Hzy. exact IH.
Qed.

Lemma occurrences_not_elem_of (x : string) (l : list string) :
  x ∉ l -> occurrences x l = 0.
Proof.
  unfold occurrences. induction l as [|z l IH]; intros Hnin; [reflexivity|].
  apply not_elem_of_cons in Hnin as [Hne Hnin].
  rewrite filter_cons_False by congruence. auto.
Qed.

Lemma newFavorites_NoDup (l : list string) (x : string) :
  NoDup l -> NoDup (newFavorites l x).
Proof.
  intros Hnd. unfold newFavorites. destruct (includes l x) eqn:E.
  - apply NoDup_filter, Hnd.
  - apply includes_false in E. apply NoDup_app. split; [exact Hnd|]. split.
    + intros y Hy Hx. apply list_elem_of_singleton in Hx. congruence.
    + apply NoDup_singleton.
Qed.

(** ** [toggleFavorite] and [updateSubscription], run to completion *)

Section Mutations.
Variables (remote : Remote) (m : bool).
Variables (st : Store) (cu : User) (up : UserProfile).
Hypothesis Hcu : currentUser st = Some cu.
Hypothesis Hup : userProfile st = Some up.

Lemma exec_toggleFavorite_confirmed (toolId : string) (live : Store) :
  remote _ (favorites_call cu up toolId) = Fulfilled (mkWriteReply None) ->
  exec remote m (toggleFavorite st toolId) live =
  mkRun (write (setUserProfile
                  (Some (with_favorites up (newFavorites (favorites up) toolId)))) live)
        (Returned tt)
        [some_call (favorites_call cu up toolId)]
        [(log, "[Profile] Favorites updated")].
Proof using Hcu Hup.
  intros Hok. unfold toggleFavorite. rewrite Hcu, Hup. cbn.
  unfold favorites_call in Hok. rewrite Hok. reflexivity.
Qed.

Lemma exec_toggleFavorite_failed (toolId : string) (live : Store) (exn : Exn) :
  write_fails remote (favorites_call cu up toolId) exn ->
  final (exec remote m (toggleFavorite st toolId) live) = live
  /\ completion (exec remote m (toggleFavorite st toolId) live) = Threw exn
  /\ calls (exec remote m (toggleFavorite st toolId) live)
     = [some_call (favorites_call cu up toolId)].
Proof using Hcu Hup.
  unfold write_fails, favorites_call, toggleFavorite. rewrite Hcu, Hup. cbn.
  intros [(e & -> & ->) | ->]; cbn; auto.
Qed.

Lemma exec_toggleFavorite_changed (toolId : string) :
  userProfile (final (exec remote m (toggleFavorite st toolId) st)) <> userProfile st ->
  remote _ (favorites_call cu up toolId) = Fulfilled (mkWriteReply None).
Proof using Hcu Hup.
  unfold favorites_call, toggleFavorite. rewrite Hcu, Hup. cbn.
  destruct (remote _ _) as [[[e|]]|e]; cbn; intros H;
    [exfalso; apply H; rewrite Hup; reflexivity | reflexivity
    | exfalso; apply H; rewrite Hup; reflexivity].
Qed.

Lemma exec_updateSubscription_confirmed (paid : bool) (live : Store) :
  remote _ (subscription_call cu paid) = Fulfilled (mkWriteReply None) ->
  exec remote m (updateSubscription st paid) live =
  mkRun (write (setUserProfile (Some (with_isPaid up paid))) live)
        (Returned tt)
        [some_call (subscription_call cu paid)]
        [(log, "[Profile] Subscription updated")].
Proof using Hcu Hup.
  intros Hok. unfold updateSubscription. rewrite Hcu, Hup. cbn.
  unfold subscription_call in Hok. rewrite Hok. reflexivity.
Qed.

Lemma exec_updateSubscription_failed (paid : bool) (live : Store) (exn : Exn) :
  write_fails remote (subscription_call cu paid) exn ->
  final (exec remote m (updateSubscription st paid) live) = live
  /\ completion (exec remote m (updateSubscription st paid) live) = Threw exn
  /\ calls (exec remote m (updateSubscription st paid) live)
     = [some_call (subscription_call cu paid)].
Proof using Hcu Hup.
  unfold write_fails, subscription_call, updateSubscription. rewrite Hcu, Hup. cbn.
  intros [(e & -> & ->) | ->]; cbn; auto.
Qed.

Lemma exec_updateSubscription_changed (paid : bool) :
  userProfile (final (exec remote m (updateSubscription st paid) st)) <> userProfile st ->
  remote _ (subscription_call cu paid) = Fulfilled (mkWriteReply None).
Proof using Hcu Hup.
  unfold subscription_call, updateSubscription. rewrite Hcu, Hup. cbn.
  destruct (remote _ _) as [[[e|]]|e]; cbn; intros H;
    [exfalso; apply H; rewrite Hup; reflexivity | reflexivity
    | exfalso; apply H; rewrite Hup; reflexivity].
Qed.
End Mutations.

(** C4. With a user and a profile cached and the write confirmed,
    [toggleFavorite] sends and caches the list obtained by removing the id
    when it is a member of the current list (equality of ids) and appending
    it otherwise; the rest of the profile is kept.  In particular ["t1"]
    toggled with "t1" gives [], and toggled with "t2" gives ["t1"; "t2"]. *)
Theorem toggleFavorite_removes_or_appends
    (remote : Remote) (m : bool) (st : Store) (cu : User) (up : UserProfile)
    (toolId : string) :
  currentUser st = Some cu ->
  userProfile st = Some up ->
  remote _ (favorites_call cu up toolId) = Fulfilled (mkWriteReply None) ->
  let r := exec remote m (toggleFavorite st toolId) st in
  completion r = Returned tt
  /\ calls r = [some_call (profiles_update_favorites
                             (spec_toggle (favorites up) toolId) (user_id cu))]
  /\ userProfile (final r)
     = Some (with_favorites up (spec_toggle (favorites up) toolId))
  /\ (favorites up = ["t1"] -> toolId = "t1" ->
      favorites <$> userProfile (final r) = Some [])
  /\ (favorites up = ["t1"] -> toolId = "t2" ->
      favorites <$> userProfile (final r) = Some ["t1"; "t2"]).
Proof.
  intros Hcu Hup Hok r. subst r.
  rewrite (exec_toggleFavorite_confirmed remote m st cu up Hcu Hup toolId st Hok).
  cbn. unfold favorites_call. rewrite newFavorites_spec.
  repeat split; intros -> ->; reflexivity.
Qed.

Lemma toggleFavorite_removes_or_appends_witness :
  favorites <$> userProfile
    (final (exec (serve empty_service) true
                 (toggleFavorite (signed_in ["t1"]) "t1") (signed_in ["t1"])))
  = Some []
  /\ favorites <$> userProfile
       (final (exec (serve empty_service) true
                    (toggleFavorite (signed_in ["t1"]) "t2") (signed_in ["t1"])))
     = Some ["t1"; "t2"].
Proof.
  split.
  - refine (proj1 (proj2 (proj2 (proj2
      (toggleFavorite_removes_or_appends (serve empty_service) true
         (signed_in ["t1"]) alice (profile_with ["t1"]) "t1" _ _ _)))) _ _);
      reflexivity.
  - refine (proj2 (proj2 (proj2 (proj2
      (toggleFavorite_removes_or_appends (serve empty_service) true
         (signed_in ["t1"]) alice (profile_with ["t1"]) "t2" _ _ _)))) _ _);
      reflexivity.
Defined.

(** C3 as stated fails: a starting list that already holds an id twice keeps
    both copies when another id is toggled. *)
Lemma toggleFavorite_keeps_old_duplicates :
  let st := signed_in ["a"; "a"] in
  let r := exec (serve empty_service) true (toggleFavorite st "b") st in
  completion r = Returned tt
  /\ exists up', userProfile (final r) = Some up'
       /\ favorites up' = ["a"; "a"; "b"]
       /\ ~ NoDup (favorites up').
Proof.
  cbn. split; [reflexivity|]. eexists. split; [reflexivity|]. cbn.
  split; [reflexivity|]. intros H. inversion H as [|x l Hnin _]; subst.
  apply Hnin. left.
Qed.

(** C3, amended. After a confirmed toggle the toggled id occurs at most once
    in the cached list and every other id occurs as often as before, for
    every starting list; hence the list is free of duplicates whenever the
    starting list was. *)
Theorem toggleFavorite_preserves_NoDup
    (remote : Remote) (m : bool) (st : Store) (cu : User) (up : UserProfile)
    (toolId : string) :
  currentUser st = Some cu ->
  userProfile st = Some up ->
  remote _ (favorites_call cu up toolId) = Fulfilled (mkWriteReply None) ->
  exists up',
    userProfile (final (exec remote m (toggleFavorite st toolId) st)) = Some up'
    /\ occurrences toolId (favorites up') <= 1
    /\ (forall y, y <> toolId ->
          occurrences y (favorites up') = occurrences y (favorites up))
    /\ (NoDup (favorites up) -> NoDup (favorites up')).
Proof.
  intros Hcu Hup Hok.
  rewrite (exec_toggleFavorite_confirmed remote m st cu up Hcu Hup toolId st Hok).
  eexists. split; [reflexivity|].
  change (favorites (with_favorites up (newFavorites (favorites up) toolId)))
    with (newFavorites (favorites up) toolId).
  split; [|split].
  - unfold newFavorites. destruct (includes (favorites up) toolId) eqn:E.
    + rewrite occurrences_filter_ne. rewrite decide_True by reflexivity. lia.
    + apply includes_false in E. rewrite occurrences_app.
      rewrite (occurrences_not_elem_of _ _ E).
      unfold occurrences. rewrite filter_cons_True by reflexivity. cbn. lia.
  - intros y Hy. unfold newFavorites. destruct (includes (favorites up) toolId).
    + rewrite occurrences_filter_ne. rewrite decide_False by exact Hy. reflexivity.
    + rewrite occurrences_app. unfold occurrences at 2.
      rewrite filter_cons_False by congruence. cbn. lia.
  - apply newFavorites_NoDup.
Qed.

Lemma toggleFavorite_preserves_NoDup_witness :
  exists up',
    userProfile (final (exec (serve empty_service) true
                             (toggleFavorite (signed_in ["t1"; "t2"]) "t3")
                             (signed_in ["t1"; "t2"]))) = Some up'
    /\ occurrences "t3" (favorites up') <= 1
    /\ (forall y, y <> "t3" ->
          occurrences y (favorites up') = occurrences y ["t1"; "t2"])
    /\ (NoDup ["t1"; "t2"] -> NoDup (favorites up')).
Proof.
  apply (toggleFavorite_preserves_NoDup (serve empty_service) true
           (signed_in ["t1"; "t2"]) alice (profile_with ["t1"; "t2"]) "t3");
    reflexivity.
Defined.

Lemma with_favorites_same (up : UserProfile) :
  with_favorites up (favorites up) = up.
Proof. destruct up; reflexivity. Qed.

Lemma toggle_twice_confirmed
    (remote1 remote2 : Remote) (st : Store) (cu : User) (up : UserProfile)
    (toolId : string) :
  currentUser st = Some cu ->
  userProfile st = Some up ->
  favorites_writes_succeed remote1 ->
  favorites_writes_succeed remote2 ->
  userProfile (toggle_twice remote1 remote2 st toolId)
  = Some (with_favorites up (newFavorites (newFavorites (favorites up) toolId) toolId)).
Proof.
  intros Hcu Hup H1 H2. unfold toggle_twice.
  rewrite (exec_toggleFavorite_confirmed remote1 true st cu up Hcu Hup toolId st (H1 _ _)).
  cbn [final].
  set (up1 := with_favorites up (newFavorites (favorites up) toolId)).
  rewrite (exec_toggleFavorite_confirmed remote2 true
             (write (setUserProfile (Some up1)) st) cu up1
             Hcu eq_refl toolId _ (H2 _ _)).
  reflexivity.
Qed.

(** C2 as stated fails: when the id is in the list, the second toggle puts
    it back at the end, not at its old place. *)
Lemma toggle_twice_moves_id_to_end :
  favorites_writes_succeed (serve empty_service)
  /\ favorites <$> userProfile
       (toggle_twice (serve empty_service) (serve empty_service)
                     (signed_in ["t1"; "t2"]) "t1")
     = Some ["t2"; "t1"]
  /\ ["t2"; "t1"] <> ["t1"; "t2"].
Proof.
  split; [intros favs uid; reflexivity|]. split; [reflexivity | discriminate].
Qed.

(** C2, amended. Two confirmed toggles of the same id in a row leave a list
    with the same members as the original one and the other profile fields
    as they were; the list (indeed the whole profile) is equal to the
    original when the id was not in it, and otherwise it is the original
    with every occurrence of the id removed and the id appended once. *)
Theorem toggle_twice_keeps_members
    (remote1 remote2 : Remote) (st : Store) (cu : User) (up : UserProfile)
    (toolId : string) :
  currentUser st = Some cu ->
  userProfile st = Some up ->
  favorites_writes_succeed remote1 ->
  favorites_writes_succeed remote2 ->
  exists up2,
    userProfile (toggle_twice remote1 remote2 st toolId) = Some up2
    /\ up2 = with_favorites up (favorites up2)
    /\ (forall y, y ∈ favorites up2 <-> y ∈ favorites up)
    /\ (toolId ∉ favorites up -> up2 = up)
    /\ (toolId ∈ favorites up ->
        favorites up2 = filter (fun id => id ≠ toolId) (favorites up) ++ [toolId]).
Proof.
  intros Hcu Hup H1 H2.
  rewrite (toggle_twice_confirmed remote1 remote2 st cu up toolId Hcu Hup H1 H2).
  eexists. split; [reflexivity|].
  change (favorites (with_favorites up ?l)) with l.
  rewrite newFavorites_twice.
  split; [reflexivity|]. split; [|split].
  - intros y. destruct (decide (toolId ∈ favorites up)) as [Hin|Hnin]; [|reflexivity].
    rewrite elem_of_app, list_elem_of_filter, list_elem_of_singleton.
    split.
    + intros [[_ H] | ->]; assumption.
    + intros H. destruct (decide (y = toolId)); auto.
  - intros Hnin. rewrite decide_False by exact Hnin. apply with_favorites_same.
  - intros Hin. rewrite decide_True by exact Hin. reflexivity.
Qed.

Lemma toggle_twice_keeps_members_witness :
  exists up2,
    userProfile (toggle_twice (serve empty_service) (serve empty_service)
                              (signed_in ["t1"; "t2"]) "t1") = Some up2
    /\ up2 = with_favorites (profile_with ["t1"; "t2"]) (favorites up2)
    /\ (forall y, y ∈ favorites up2 <-> y ∈ ["t1"; "t2"])
    /\ ("t1" ∉ ["t1"; "t2"] -> up2 = profile_with ["t1"; "t2"])
    /\ ("t1" ∈ ["t1"; "t2"] ->
        favorites up2 = filter (fun id => id ≠ "t1") ["t1"; "t2"] ++ ["t1"]).
Proof.
  apply (toggle_twice_keeps_members (serve empty_service) (serve empty_service)
           (signed_in ["t1"; "t2"]) alice (profile_with ["t1"; "t2"]) "t1");
    [reflexivity | reflexivity | intros favs uid; reflexivity
    | intros favs uid; reflexivity].
Defined.

(** The closures of one render do not see what an earlier call wrote: the
    same [toggleFavorite] called again, without the render in between, sends
    and caches the same list again. *)
Remark toggleFavorite_again_in_same_render
    (remote : Remote) (st : Store) (cu : User) (up : UserProfile) (toolId : string) :
  currentUser st = Some cu ->
  userProfile st = Some up ->
  favorites_writes_succeed remote ->
  let st1 := final (exec remote true (toggleFavorite st toolId) st) in
  final (exec remote true (toggleFavorite st toolId) st1) = st1.
Proof.
  intros Hcu Hup Hok. cbn zeta.
  rewrite !(exec_toggleFavorite_confirmed remote true st cu up Hcu Hup toolId _ (Hok _ _)).
  reflexivity.
Qed.

(** C5. When the remote write of [toggleFavorite] fails (the reply carries
    an error, or the promise rejects), the call throws that error to its
    caller and the store it runs on, the cached profile with it, is left as
    it was, whatever that store is; the same holds, on its own, for
    [updateSubscription].  In every run the remote call is the first thing
    either operation does, and a state write follows it only when the reply
    carries no error: the cache is written after the confirmation, never
    before. *)
Theorem failed_write_rethrows_with_cache_untouched
    (remote : Remote) (m : bool) (st live : Store) (cu : User) (up : UserProfile)
    (toolId : string) (paid : bool) :
  currentUser st = Some cu ->
  userProfile st = Some up ->
  (forall exn, write_fails remote (favorites_call cu up toolId) exn ->
     completion (exec remote m (toggleFavorite st toolId) live) = Threw exn
     /\ final (exec remote m (toggleFavorite st toolId) live) = live)
  /\ (forall exn, write_fails remote (subscription_call cu paid) exn ->
        completion (exec remote m (updateSubscription st paid) live) = Threw exn
        /\ final (exec remote m (updateSubscription st paid) live) = live)
  /\ history remote m (toggleFavorite st toolId)
     = Called (some_call (favorites_call cu up toolId))
       :: match remote _ (favorites_call cu up toolId) with
          | Fulfilled {| write_error := None |} =>
              [Wrote (setUserProfile
                        (Some (with_favorites up (newFavorites (favorites up) toolId))))]
          | _ => []
          end
  /\ history remote m (updateSubscription st paid)
     = Called (some_call (subscription_call cu paid))
       :: match remote _ (subscription_call cu paid) with
          | Fulfilled {| write_error := None |} =>
              [Wrote (setUserProfile (Some (with_isPaid up paid)))]
          | _ => []
          end.
Proof.
  intros Hcu Hup. split; [|split; [|split]].
  - intros exn Hf.
    destruct (exec_toggleFavorite_failed remote m st cu up Hcu Hup toolId live exn Hf)
      as (F & C & _).
    split; assumption.
  - intros exn Hf.
    destruct (exec_updateSubscription_failed remote m st cu up Hcu Hup paid live exn Hf)
      as (F & C & _).
    split; assumption.
  - unfold toggleFavorite, favorites_call. rewrite Hcu, Hup. cbn.
    destruct (remote _ _) as [[[e|]]|e]; reflexivity.
  - unfold updateSubscription, subscription_call. rewrite Hcu, Hup. cbn.
    destruct (remote _ _) as [[[e|]]|e]; reflexivity.
Qed.

Lemma failed_write_rethrows_with_cache_untouched_witness :
  (completion (exec (serve (service_failing_favorites quota_exceeded)) true
                    (toggleFavorite (signed_in ["t1"]) "t2") (signed_in ["t9"]))
   = Threw (PgErr quota_exceeded)
   /\ final (exec (serve (service_failing_favorites quota_exceeded)) true
                  (toggleFavorite (signed_in ["t1"]) "t2") (signed_in ["t9"]))
      = signed_in ["t9"])
  /\ (completion (exec (serve (service_failing_subscription quota_exceeded)) true
                       (updateSubscription (signed_in ["t1"]) true) (signed_in ["t9"]))
      = Threw (PgErr quota_exceeded)
      /\ final (exec (serve (service_failing_subscription quota_exceeded)) true
                     (updateSubscription (signed_in ["t1"]) true) (signed_in ["t9"]))
         = signed_in ["t9"])
  /\ history (serve (service_failing_favorites quota_exceeded)) true
             (toggleFavorite (signed_in ["t1"]) "t2")
     = [Called (some_call (profiles_update_favorites ["t1"; "t2"] "u1"))]
  /\ history (serve (service_failing_favorites quota_exceeded)) true
             (updateSubscription (signed_in ["t1"]) true)
     = [Called (some_call (profiles_update_is_paid true "u1"));
        Wrote (setUserProfile (Some (with_isPaid (profile_with ["t1"]) true)))].
Proof.
  pose proof (failed_write_rethrows_with_cache_untouched
                (serve (service_failing_favorites quota_exceeded)) true
                (signed_in ["t1"]) (signed_in ["t9"]) alice (profile_with ["t1"])
                "t2" true eq_refl eq_refl) as (Ht & _ & Hh1 & Hh2).
  pose proof (failed_write_rethrows_with_cache_untouched
                (serve (service_failing_subscription quota_exceeded)) true
                (signed_in ["t1"]) (signed_in ["t9"]) alice (profile_with ["t1"])
                "t2" true eq_refl eq_refl) as (_ & Hs & _ & _).
  split; [|split; [|split]].
  - apply Ht. left. exists quota_exceeded. split; reflexivity.
  - apply Hs. left. exists quota_exceeded. split; reflexivity.
  - exact Hh1.
  - exact Hh2.
Defined.

(** C8. A render that has no user cached, or no profile cached, gives
    [toggleFavorite] and [updateSubscription] that return at once: whatever
    the remote and the store they run on, no remote call is made, nothing is
    thrown, nothing is printed, and the four state cells are unchanged. *)
Theorem mutations_return_at_once_without_user_or_profile
    (st : Store) (remote : Remote) (m : bool) (live : Store)
    (toolId : string) (paid : bool) :
  currentUser st = None \/ userProfile st = None ->
  exec remote m (toggleFavorite st toolId) live = mkRun live (Returned tt) [] []
  /\ exec remote m (updateSubscription st paid) live = mkRun live (Returned tt) [] [].
Proof.
  unfold toggleFavorite, updateSubscription.
  intros [H | H]; rewrite H; [|destruct (currentUser st)]; split; reflexivity.
Qed.

Lemma mutations_return_at_once_without_user_or_profile_witness :
  exec (serve (service_failing_writes quota_exceeded)) true
       (toggleFavorite initial_store "t1") initial_store
  = mkRun initial_store (Returned tt) [] []
  /\ exec (serve (service_failing_writes quota_exceeded)) true
          (updateSubscription initial_store true) initial_store
     = mkRun initial_store (Returned tt) [] [].
Proof.
  apply (mutations_return_at_once_without_user_or_profile initial_store).
  left. reflexivity.
Defined.

(** ** [fetchUserProfile] and [signup] *)

Lemma exec_fetchUserProfile_row
    (remote : Remote) (m : bool) (uid : string) (st : Store) (row : Row) :
  remote _ (profiles_select_single uid) = Fulfilled (mkSingleReply (Some row) None) ->
  completion (exec remote m (fetchUserProfile uid) st) = Returned tt
  /\ final (exec remote m (fetchUserProfile uid) st)
     = write (setLoading false) (write (setUserProfile (Some (profile_of_row row))) st).
Proof.
  intros H. unfold fetchUserProfile. cbn. rewrite H. split; reflexivity.
Qed.

Lemma exec_signup_confirmed
    (remote : Remote) (m : bool) (st : Store) (mail pass : string)
    (profile : ProfileInput) (u : User) :
  remote _ (auth_signUp mail pass) = Fulfilled (mkSignUpReply (Some u) None) ->
  remote _ (profiles_insert (signup_row u profile)) = Fulfilled (mkWriteReply None) ->
  exec remote m (signup mail pass profile) st =
  mkRun st (Returned tt)
        [some_call (auth_signUp mail pass);
         some_call (profiles_insert (signup_row u profile))]
        [(log, "[Auth] Signing up..."); (log, "[Auth] User profile created")].
Proof.
  intros Hsign Hins. unfold signup. cbn. rewrite Hsign. cbn.
  unfold signup_row in Hins. rewrite Hins. reflexivity.
Qed.

(** C7. When the select of [fetchUserProfile] is answered with the no-rows
    error code PGRST116, the call returns normally (nothing is thrown to the
    caller and nothing goes to [console.error]) with the profile set to null
    and loading set to false; user and session are not touched. *)
Theorem fetchUserProfile_no_rows_is_benign
    (remote : Remote) (m : bool) (uid : string) (st : Store)
    (d : option Row) (e : PostgrestError) :
  code e = "PGRST116" ->
  remote _ (profiles_select_single uid) = Fulfilled (mkSingleReply d (Some e)) ->
  let r := exec remote m (fetchUserProfile uid) st in
  completion r = Returned tt
  /\ userProfile (final r) = None
  /\ loading (final r) = false
  /\ currentUser (final r) = currentUser st
  /\ session (final r) = session st
  /\ Forall (fun line => line.1 = log) (printed r).
Proof.
  intros Hcode H r. subst r. unfold fetchUserProfile. cbn. rewrite H. cbn.
  destruct (decide (code e = "PGRST116")) as [_|Hne]; [|contradiction].
  cbn. repeat split. repeat constructor.
Qed.

Lemma fetchUserProfile_no_rows_is_benign_witness :
  let r := exec (serve empty_service) true (fetchUserProfile "u1") (signed_in ["t1"]) in
  completion r = Returned tt
  /\ userProfile (final r) = None
  /\ loading (final r) = false
  /\ currentUser (final r) = Some alice
  /\ session (final r) = Some alice_session
  /\ Forall (fun line => line.1 = log) (printed r).
Proof.
  apply (fetchUserProfile_no_rows_is_benign (serve empty_service) true "u1"
           (signed_in ["t1"]) None no_rows); reflexivity.
Defined.

(** C9. A signup with the fields username "a", email "e@x.com", phone "",
    job "j", interests ["x"] that succeeds (the provider returns a new user,
    the insert is confirmed) inserts one row under that user's id; whenever a
    later profile fetch for that id is answered with this row, the cached
    profile has the supplied fields, favorites [] and isPaid false.  The
    signup itself writes no state. *)
Theorem signup_then_fetch_roundtrip
    (remote : Remote) (m : bool) (st : Store) (mail pass : string) (u : User) :
  remote _ (auth_signUp mail pass) = Fulfilled (mkSignUpReply (Some u) None) ->
  (forall row, remote _ (profiles_insert row) = Fulfilled (mkWriteReply None)) ->
  exists row,
    calls (exec remote m (signup mail pass sample_input) st)
    = [some_call (auth_signUp mail pass); some_call (profiles_insert row)]
    /\ completion (exec remote m (signup mail pass sample_input) st) = Returned tt
    /\ final (exec remote m (signup mail pass sample_input) st) = st
    /\ row_user_id row = user_id u
    /\ forall (remote' : Remote) (m' : bool) (st' : Store),
         remote' _ (profiles_select_single (user_id u))
         = Fulfilled (mkSingleReply (Some row) None) ->
         completion (exec remote' m' (fetchUserProfile (user_id u)) st') = Returned tt
         /\ userProfile (final (exec remote' m' (fetchUserProfile (user_id u)) st'))
            = Some {| username := "a"; email := "e@x.com"; phone := ""; job := "j";
                      interests := ["x"]; favorites := []; isPaid := false |}.
Proof.
  intros Hsign Hins.
  rewrite (exec_signup_confirmed remote m st mail pass sample_input u Hsign (Hins _)).
  eexists. split; [reflexivity|].
  split; [reflexivity|]. split; [reflexivity|]. split; [reflexivity|].
  intros remote' m' st' H.
  destruct (exec_fetchUserProfile_row remote' m' _ st' _ H) as [Hc Hf].
  split; [exact Hc|]. rewrite Hf. reflexivity.
Qed.

Lemma signup_then_fetch_roundtrip_witness :
  exists row,
    calls (exec (serve (signup_service alice)) true
                (signup "e@x.com" "secret" sample_input) initial_store)
    = [some_call (auth_signUp "e@x.com" "secret"); some_call (profiles_insert row)]
    /\ userProfile (final (exec (serve (service_with_row row)) true
                                (fetchUserProfile "u1") initial_store))
       = Some {| username := "a"; email := "e@x.com"; phone := ""; job := "j";
                 interests := ["x"]; favorites := []; isPaid := false |}.
Proof.
  destruct (signup_then_fetch_roundtrip (serve (signup_service alice)) true
              initial_store "e@x.com" "secret" alice eq_refl (fun _ => eq_refl))
    as (row & Hcalls & _ & _ & Hid & Hfetch).
  exists row. split; [exact Hcalls|].
  apply (Hfetch (serve (service_with_row row)) true initial_store).
  cbn. rewrite Hid. rewrite decide_True by reflexivity. reflexivity.
Defined.

(** ** [useAuth] *)

(** C10. A component with no enclosing [AuthProvider] reads the context
    default [undefined], and [useAuth] then throws its error instead of
    returning; it returns a context value only when one is provided. *)
Theorem useAuth_outside_provider_throws (providers : list AuthContextType) :
  useContext providers = None ->
  useAuth providers = Threw (JsErr "useAuth must be used within an AuthProvider")
  /\ forall context, useAuth providers <> Returned context.
Proof.
  intros H. unfold useAuth. rewrite H. split; [reflexivity | discriminate].
Qed.

Lemma useAuth_outside_provider_throws_witness :
  useAuth [] = Threw (JsErr "useAuth must be used within an AuthProvider")
  /\ forall context, useAuth [] <> Returned context.
Proof.
  apply (useAuth_outside_provider_throws []). reflexivity.
Defined.

(** ** The effect: session changes, late replies, teardown *)

Lemma fetch_continuation_writes (uid : string) (w : World) :
  exists p,
    fetch_like p
    /\ advance (fetchUserProfile uid) w
       = mkWorld (store w) (mounted w) (subscribed w) (inflight w ++ [p]) (journal w).
Proof.
  unfold fetchUserProfile. cbn. eexists. split; [|reflexivity].
  intros o w'. destruct o as [[d [e|]]|e]; cbn.
  - destruct (decide (code e = "PGRST116")); cbn; eexists; repeat split.
  - destruct d; cbn; eexists; repeat split.
  - eexists; repeat split.
Qed.

(** From here on [fetchUserProfile] is reasoned about through
    [fetch_continuation_writes] only. *)
#[local] Arguments fetchUserProfile : simpl never.





(** After the cleanup has run, a session change writes nothing: the callback
    is unsubscribed, and it tests [mounted] first anyway. *)
Lemma change_after_teardown_is_ignored (sess : option Session) (w : World) :
  step (step w Teardown) (AuthStateChange sess) = step w Teardown.
Proof. reflexivity. Qed.

Lemma unmounted_callback_writes_nothing (sess : option Session) (w : World) :
  mounted w = false -> advance (onAuthStateChange sess) w = w.
Proof. intros H. unfold onAuthStateChange. cbn. rewrite H. reflexivity. Qed.


(** The initial request has to settle first: [initializeAuth] adopts a
    session without a user without dropping the profile, so a reply to
    [getSession] that arrives after a sign-in has been handled leaves that
    user's profile cached with no user. *)
Lemma initial_session_reply_after_sign_in_keeps_profile :
  let w := run [AuthStateChange (Some alice_session);
                Settle 1 (serve alice_service);
                Settle 0 (serve empty_service)] mount in
  quiescent w
  /\ currentUser (store w) = None
  /\ userProfile (store w) = Some (profile_with ["t1"; "t2"]).
Proof. cbn. repeat split. Qed.



(** C6 fails on the code. [fetchUserProfile] writes the profile and the
    loading flag after its await without testing [mounted]: a reply that
    arrives after the cleanup of the effect is written into the state. *)
Theorem fetch_reply_after_teardown_writes_state :
  let before := run [Settle 0 (serve alice_service); Teardown] mount in
  let after := step before (Settle 0 (serve alice_service)) in
  mounted before = false
  /\ store before = {| currentUser := Some alice; userProfile := None;
                       session := Some alice_session; loading := true |}
  /\ store after = {| currentUser := Some alice;
                      userProfile := Some (profile_with ["t1"; "t2"]);
                      session := Some alice_session; loading := false |}
  /\ journal after
     = journal before ++ [(false, setUserProfile (Some (profile_with ["t1"; "t2"])));
                          (false, setLoading false)].
Proof. cbn. repeat split. Qed.

(** * Further properties of the source functions *)

(** ** [fetchUserProfile] *)

#[local] Arguments fetchUserProfile : clear simpl.

(** Whatever the remote answers, [fetchUserProfile] makes exactly one call,
    returns normally, leaves [loading = false], does not touch user and
    session, and caches a profile exactly when the reply has no error and
    carries a row. *)
Theorem fetchUserProfile_always_settles
    (remote : Remote) (m : bool) (uid : string) (st : Store) :
  let r := exec remote m (fetchUserProfile uid) st in
  completion r = Returned tt
  /\ calls r = [some_call (profiles_select_single uid)]
  /\ loading (final r) = false
  /\ currentUser (final r) = currentUser st
  /\ session (final r) = session st
  /\ userProfile (final r)
     = match remote _ (profiles_select_single uid) with
       | Fulfilled {| data := Some row; error := None |} => Some (profile_of_row row)
       | _ => None
       end.
Proof.
  unfold fetchUserProfile. cbn.
  destruct (remote _ (profiles_select_single uid)) as [[d [e|]]|e]; cbn.
  - destruct (decide (code e = "PGRST116")); cbn; destruct d; auto 10.
  - destruct d; cbn; auto 10.
  - auto 10.
Qed.

(** The failures [fetchUserProfile] swallows are reported on
    [console.error], except the no-rows code: a line goes to [console.error]
    exactly when the reply carries an error whose code is not PGRST116 or the
    promise rejects. *)
Theorem fetchUserProfile_reports_swallowed_errors
    (remote : Remote) (m : bool) (uid : string) (st : Store) :
  (exists msg, (err, msg) ∈ printed (exec remote m (fetchUserProfile uid) st))
  <-> (exists d e, remote _ (profiles_select_single uid)
                   = Fulfilled (mkSingleReply d (Some e))
                   /\ code e <> "PGRST116")
      \/ (exists e, remote _ (profiles_select_single uid) = Rejected e).
Proof.
  unfold fetchUserProfile. cbn.
  destruct (remote _ (profiles_select_single uid)) as [[d [e|]]|e]; cbn.
  - destruct (decide (code e = "PGRST116")) as [Hc|Hc]; cbn; split.
    + intros [msg H]. repeat (apply elem_of_cons in H as [H|H]; [discriminate|]).
      inversion H.
    + intros [(d' & e' & H & Hne) | [e' H]]; [|discriminate].
      injection H as _ <-. contradiction.
    + intros _. left. exists d, e. auto.
    + intros _. eexists. apply list_elem_of_further, list_elem_of_here.
  - split.
    + intros [msg H]. destruct d; cbn in H;
        repeat (apply elem_of_cons in H as [H|H]; [discriminate|]); inversion H.
    + intros [(d' & e' & H & _) | [e' H]]; discriminate.
  - split.
    + intros _. right. exists e. reflexivity.
    + intros _. eexists. apply list_elem_of_further, list_elem_of_here.
Qed.

(** ** [signup], [login], [logout] *)

(** [signup] never writes the store, and it inserts a row only for a user
    the provider returned without error: its calls are the sign-up alone, or
    the sign-up followed by the insert of that user's row. *)
Theorem signup_writes_no_state
    (remote : Remote) (m : bool) (st : Store) (mail pass : string)
    (profile : ProfileInput) :
  let r := exec remote m (signup mail pass profile) st in
  final r = st
  /\ (calls r = [some_call (auth_signUp mail pass)]
      \/ exists u,
           remote _ (auth_signUp mail pass) = Fulfilled (mkSignUpReply (Some u) None)
           /\ calls r = [some_call (auth_signUp mail pass);
                         some_call (profiles_insert (signup_row u profile))]).
Proof.
  unfold signup. cbn.
  destruct (remote _ (auth_signUp mail pass)) as [[[u|] [e|]]|e]; cbn; auto.
  split.
  - destruct (remote _ (profiles_insert _)) as [[[e|]]|e]; reflexivity.
  - right. exists u. split; [reflexivity|].
    destruct (remote _ (profiles_insert _)) as [[[e|]]|e]; reflexivity.
Qed.

(** When the provider answers the sign-up with an error, [signup] throws it
    and attempts no insert, even if the reply also carries a user. *)
Theorem signup_provider_error_stops_before_insert
    (remote : Remote) (m : bool) (st : Store) (mail pass : string)
    (profile : ProfileInput) (u : option User) (e : AuthError) :
  remote _ (auth_signUp mail pass) = Fulfilled (mkSignUpReply u (Some e)) ->
  exec remote m (signup mail pass profile) st
  = mkRun st (Threw (AuthErr e)) [some_call (auth_signUp mail pass)]
          [(log, "[Auth] Signing up..."); (err, "[Auth] Signup error:")].
Proof. intros H. unfold signup. cbn. rewrite H. reflexivity. Qed.

Lemma signup_provider_error_stops_before_insert_witness :
  exec (serve {| on_getSession := on_getSession empty_service;
                 on_signUp := fun _ _ =>
                   Fulfilled (mkSignUpReply (Some alice) (Some (mkAuthError "weak password")));
                 on_signIn := on_signIn empty_service;
                 on_signOut := on_signOut empty_service;
                 on_select := on_select empty_service;
                 on_insert := on_insert empty_service;
                 on_update_favorites := on_update_favorites empty_service;
                 on_update_is_paid := on_update_is_paid empty_service |})
       true (signup "e@x.com" "pw" sample_input) initial_store
  = mkRun initial_store (Threw (AuthErr (mkAuthError "weak password")))
          [some_call (auth_signUp "e@x.com" "pw")]
          [(log, "[Auth] Signing up..."); (err, "[Auth] Signup error:")].
Proof.
  apply (signup_provider_error_stops_before_insert _ true initial_store
           "e@x.com" "pw" sample_input (Some alice) (mkAuthError "weak password")).
  reflexivity.
Defined.

(** When the user was created but the insert of the profile row fails,
    [signup] throws the insert's error; it has made the two calls and makes
    no further one (the new user is not removed), and the store is as it
    was. *)
Theorem signup_insert_failure_is_rethrown
    (remote : Remote) (m : bool) (st : Store) (mail pass : string)
    (profile : ProfileInput) (u : User) (exn : Exn) :
  remote _ (auth_signUp mail pass) = Fulfilled (mkSignUpReply (Some u) None) ->
  write_fails remote (profiles_insert (signup_row u profile)) exn ->
  let r := exec remote m (signup mail pass profile) st in
  completion r = Threw exn
  /\ final r = st
  /\ calls r = [some_call (auth_signUp mail pass);
                some_call (profiles_insert (signup_row u profile))].
Proof.
  intros Hsign Hfail. unfold signup. cbn. rewrite Hsign. cbn.
  unfold write_fails, signup_row in Hfail.
  destruct Hfail as [(e & -> & ->) | ->]; cbn; auto.
Qed.

Lemma signup_insert_failure_is_rethrown_witness :
  let r := exec (serve {| on_getSession := on_getSession empty_service;
                          on_signUp := on_signUp (signup_service alice);
                          on_signIn := on_signIn empty_service;
                          on_signOut := on_signOut empty_service;
                          on_select := on_select empty_service;
                          on_insert := on_insert (service_failing_writes quota_exceeded);
                          on_update_favorites := on_update_favorites empty_service;
                          on_update_is_paid := on_update_is_paid empty_service |})
                true (signup "e@x.com" "pw" sample_input) initial_store in
  completion r = Threw (PgErr quota_exceeded)
  /\ final r = initial_store
  /\ calls r = [some_call (auth_signUp "e@x.com" "pw");
                some_call (profiles_insert (signup_row alice sample_input))].
Proof.
  apply (signup_insert_failure_is_rethrown _ true initial_store "e@x.com" "pw"
           sample_input alice (PgErr quota_exceeded)).
  - reflexivity.
  - left. exists quota_exceeded. split; reflexivity.
Defined.

(** When the provider returns neither an error nor a user, [signup] returns
    normally after the sign-up call alone: no profile row is inserted. *)
Theorem signup_without_user_inserts_nothing
    (remote : Remote) (m : bool) (st : Store) (mail pass : string)
    (profile : ProfileInput) :
  remote _ (auth_signUp mail pass) = Fulfilled (mkSignUpReply None None) ->
  let r := exec remote m (signup mail pass profile) st in
  completion r = Returned tt
  /\ final r = st
  /\ calls r = [some_call (auth_signUp mail pass)].
Proof. intros H. unfold signup. cbn. rewrite H. cbn. auto. Qed.

Lemma signup_without_user_inserts_nothing_witness :
  let r := exec (serve empty_service) true
                (signup "e@x.com" "pw" sample_input) initial_store in
  completion r = Returned tt
  /\ final r = initial_store
  /\ calls r = [some_call (auth_signUp "e@x.com" "pw")].
Proof.
  apply (signup_without_user_inserts_nothing (serve empty_service) true
           initial_store "e@x.com" "pw" sample_input).
  reflexivity.
Defined.

(** For every payload, the row a successful [signup] inserts is read back
    by [fetchUserProfile] as a profile with exactly the supplied fields,
    no favorites and [isPaid = false]; an empty phone stays empty. *)
Theorem signup_row_reads_back
    (remote : Remote) (m : bool) (st : Store) (u : User) (profile : ProfileInput) :
  remote _ (profiles_select_single (user_id u))
  = Fulfilled (mkSingleReply (Some (signup_row u profile)) None) ->
  userProfile (final (exec remote m (fetchUserProfile (user_id u)) st))
  = Some {| username := in_username profile;
            email := in_email profile;
            phone := in_phone profile;
            job := in_job profile;
            interests := in_interests profile;
            favorites := [];
            isPaid := false |}.
Proof.
  intros H.
  rewrite (proj2 (exec_fetchUserProfile_row remote m _ st _ H)). reflexivity.
Qed.

Lemma signup_row_reads_back_witness :
  userProfile (final (exec (serve (service_with_row (signup_row alice sample_input)))
                           false (fetchUserProfile "u1") initial_store))
  = Some {| username := "a"; email := "e@x.com"; phone := ""; job := "j";
            interests := ["x"]; favorites := []; isPaid := false |}.
Proof.
  apply (signup_row_reads_back _ false initial_store alice sample_input).
  reflexivity.
Defined.

(** [login] makes the one sign-in call and never writes the store; it
    throws exactly when the reply carries an error or the promise rejects,
    and then it throws that error. *)
Theorem login_writes_no_state
    (remote : Remote) (m : bool) (st : Store) (mail pass : string) :
  let r := exec remote m (login mail pass) st in
  final r = st
  /\ calls r = [some_call (auth_signInWithPassword mail pass)]
  /\ completion r
     = match remote _ (auth_signInWithPassword mail pass) with
       | Fulfilled {| auth_error := None |} => Returned tt
       | Fulfilled {| auth_error := Some e |} => Threw (AuthErr e)
       | Rejected e => Threw e
       end.
Proof.
  unfold login. cbn.
  destruct (remote _ (auth_signInWithPassword mail pass)) as [[[e|]]|e]; cbn; auto.
Qed.

(** [logout] makes the one sign-out call and never writes the store, not
    even on success: user, session and profile stay cached until a session
    change is delivered.  It throws exactly the error of a failed sign-out. *)
Theorem logout_writes_no_state (remote : Remote) (m : bool) (st : Store) :
  let r := exec remote m logout st in
  final r = st
  /\ calls r = [some_call auth_signOut]
  /\ completion r
     = match remote _ auth_signOut with
       | Fulfilled {| auth_error := None |} => Returned tt
       | Fulfilled {| auth_error := Some e |} => Threw (AuthErr e)
       | Rejected e => Threw e
       end.
Proof.
  unfold logout. cbn.
  destruct (remote _ auth_signOut) as [[[e|]]|e]; cbn; auto.
Qed.

(** ** More on [toggleFavorite] and [updateSubscription] *)

Lemma newFavorites_keeps_others (l : list string) (x : string) :
  filter (fun id => id ≠ x) (newFavorites l x) = filter (fun id => id ≠ x) l.
Proof.
  unfold newFavorites. destruct (includes l x).
  - apply filter_ne_id. rewrite list_elem_of_filter. tauto.
  - rewrite filter_app, filter_cons_False by (intros H; apply H; reflexivity).
    rewrite filter_nil. apply app_nil_r.
Qed.

(** A confirmed toggle flips the membership of the toggled id, and leaves
    the other ids as they were, in their order. *)
Theorem toggleFavorite_flips_membership
    (remote : Remote) (m : bool) (st : Store) (cu : User) (up : UserProfile)
    (toolId : string) :
  currentUser st = Some cu ->
  userProfile st = Some up ->
  remote _ (favorites_call cu up toolId) = Fulfilled (mkWriteReply None) ->
  exists up',
    userProfile (final (exec remote m (toggleFavorite st toolId) st)) = Some up'
    /\ (toolId ∈ favorites up' <-> toolId ∉ favorites up)
    /\ filter (fun id => id ≠ toolId) (favorites up')
       = filter (fun id => id ≠ toolId) (favorites up).
Proof.
  intros Hcu Hup Hok.
  rewrite (exec_toggleFavorite_confirmed remote m st cu up Hcu Hup toolId st Hok).
  eexists. split; [reflexivity|].
  change (favorites (with_favorites up ?l)) with l.
  split; [|apply newFavorites_keeps_others].
  rewrite newFavorites_elem_of. split; [tauto|]. intros H. right. auto.
Qed.

Lemma toggleFavorite_flips_membership_witness :
  exists up',
    userProfile (final (exec (serve empty_service) true
                             (toggleFavorite (signed_in ["t1"; "t2"; "t1"]) "t1")
                             (signed_in ["t1"; "t2"; "t1"]))) = Some up'
    /\ ("t1" ∈ favorites up' <-> "t1" ∉ ["t1"; "t2"; "t1"])
    /\ filter (fun id => id ≠ "t1") (favorites up')
       = filter (fun id => id ≠ "t1") ["t1"; "t2"; "t1"].
Proof.
  apply (toggleFavorite_flips_membership (serve empty_service) true
           (signed_in ["t1"; "t2"; "t1"]) alice (profile_with ["t1"; "t2"; "t1"]) "t1");
    reflexivity.
Defined.

(** A confirmed [updateSubscription] sends the flag under the cached user's
    id and replaces [isPaid] in the cached profile; the other profile fields
    and the other three cells are kept. *)
Theorem updateSubscription_sets_only_isPaid
    (remote : Remote) (m : bool) (st : Store) (cu : User) (up : UserProfile)
    (paid : bool) :
  currentUser st = Some cu ->
  userProfile st = Some up ->
  remote _ (subscription_call cu paid) = Fulfilled (mkWriteReply None) ->
  let r := exec remote m (updateSubscription st paid) st in
  completion r = Returned tt
  /\ calls r = [some_call (profiles_update_is_paid paid (user_id cu))]
  /\ (exists up', userProfile (final r) = Some up'
        /\ isPaid up' = paid
        /\ with_isPaid up' (isPaid up) = up)
  /\ currentUser (final r) = currentUser st
  /\ session (final r) = session st
  /\ loading (final r) = loading st.
Proof.
  intros Hcu Hup Hok.
  rewrite (exec_updateSubscription_confirmed remote m st cu up Hcu Hup paid st Hok).
  cbn. split; [reflexivity|]. split; [reflexivity|]. split; [|auto].
  eexists. split; [reflexivity|]. split; [reflexivity|]. destruct up; reflexivity.
Qed.

Lemma updateSubscription_sets_only_isPaid_witness :
  let r := exec (serve empty_service) true
                (updateSubscription (signed_in ["t1"]) true) (signed_in ["t1"]) in
  completion r = Returned tt
  /\ calls r = [some_call (profiles_update_is_paid true "u1")]
  /\ (exists up', userProfile (final r) = Some up'
        /\ isPaid up' = true
        /\ with_isPaid up' false = profile_with ["t1"])
  /\ currentUser (final r) = Some alice
  /\ session (final r) = Some alice_session
  /\ loading (final r) = false.
Proof.
  apply (updateSubscription_sets_only_isPaid (serve empty_service) true
           (signed_in ["t1"]) alice (profile_with ["t1"]) true); reflexivity.
Defined.

(** With a render between the two calls, a confirmed [toggleFavorite] and a
    confirmed [updateSubscription] give the same store in either order. *)
Theorem toggleFavorite_updateSubscription_commute
    (remote1 remote2 : Remote) (st : Store) (cu : User) (up : UserProfile)
    (toolId : string) (paid : bool) :
  currentUser st = Some cu ->
  userProfile st = Some up ->
  favorites_writes_succeed remote1 ->
  subscription_writes_succeed remote2 ->
  let a := final (exec remote1 true (toggleFavorite st toolId) st) in
  let b := final (exec remote2 true (updateSubscription st paid) st) in
  final (exec remote2 true (updateSubscription a paid) a)
  = final (exec remote1 true (toggleFavorite b toolId) b).
Proof.
  intros Hcu Hup H1 H2. cbn zeta.
  rewrite (exec_toggleFavorite_confirmed remote1 true st cu up Hcu Hup toolId st (H1 _ _)).
  rewrite (exec_updateSubscription_confirmed remote2 true st cu up Hcu Hup paid st (H2 _ _)).
  cbn [final].
  set (upa := with_favorites up (newFavorites (favorites up) toolId)).
  set (upb := with_isPaid up paid).
  rewrite (exec_updateSubscription_confirmed remote2 true
             (write (setUserProfile (Some upa)) st) cu upa Hcu eq_refl paid _ (H2 _ _)).
  rewrite (exec_toggleFavorite_confirmed remote1 true
             (write (setUserProfile (Some upb)) st) cu upb Hcu eq_refl toolId _ (H1 _ _)).
  reflexivity.
Qed.

Lemma toggleFavorite_updateSubscription_commute_witness :
  final (exec (serve empty_service) true
              (updateSubscription
                 (final (exec (serve empty_service) true
                              (toggleFavorite (signed_in ["t1"]) "t2") (signed_in ["t1"])))
                 true)
              (final (exec (serve empty_service) true
                           (toggleFavorite (signed_in ["t1"]) "t2") (signed_in ["t1"]))))
  = final (exec (serve empty_service) true
                (toggleFavorite
                   (final (exec (serve empty_service) true
                                (updateSubscription (signed_in ["t1"]) true)
                                (signed_in ["t1"])))
                   "t2")
                (final (exec (serve empty_service) true
                             (updateSubscription (signed_in ["t1"]) true)
                             (signed_in ["t1"])))).
Proof.
  apply (toggleFavorite_updateSubscription_commute (serve empty_service)
           (serve empty_service) (signed_in ["t1"]) alice (profile_with ["t1"]) "t2" true);
    [reflexivity | reflexivity | intros favs uid; reflexivity
    | intros p uid; reflexivity].
Defined.

(** Without a render between the two calls the second one overwrites the
    first in the cache: [updateSubscription] of the render that also gave the
    [toggleFavorite] just confirmed caches the old favorites again, although
    the new list was sent to the remote. *)
Theorem updateSubscription_of_same_render_drops_toggle
    (remote1 remote2 : Remote) (st : Store) (cu : User) (up : UserProfile)
    (toolId : string) (paid : bool) :
  currentUser st = Some cu ->
  userProfile st = Some up ->
  favorites_writes_succeed remote1 ->
  subscription_writes_succeed remote2 ->
  let first := exec remote1 true (toggleFavorite st toolId) st in
  let second := exec remote2 true (updateSubscription st paid) (final first) in
  calls first = [some_call (profiles_update_favorites
                              (newFavorites (favorites up) toolId) (user_id cu))]
  /\ favorites <$> userProfile (final first)
     = Some (newFavorites (favorites up) toolId)
  /\ completion second = Returned tt
  /\ userProfile (final second) = Some (with_isPaid up paid)
  /\ favorites <$> userProfile (final second) = Some (favorites up).
Proof.
  intros Hcu Hup H1 H2. cbn zeta.
  rewrite (exec_toggleFavorite_confirmed remote1 true st cu up Hcu Hup toolId st (H1 _ _)).
  rewrite (exec_updateSubscription_confirmed remote2 true st cu up Hcu Hup paid _ (H2 _ _)).
  cbn. auto.
Qed.

Lemma updateSubscription_of_same_render_drops_toggle_witness :
  let first := exec (serve empty_service) true
                    (toggleFavorite (signed_in ["t1"]) "t2") (signed_in ["t1"]) in
  let second := exec (serve empty_service) true
                     (updateSubscription (signed_in ["t1"]) true) (final first) in
  calls first = [some_call (profiles_update_favorites ["t1"; "t2"] "u1")]
  /\ favorites <$> userProfile (final first) = Some ["t1"; "t2"]
  /\ completion second = Returned tt
  /\ userProfile (final second) = Some (with_isPaid (profile_with ["t1"]) true)
  /\ favorites <$> userProfile (final second) = Some ["t1"].
Proof.
  apply (updateSubscription_of_same_render_drops_toggle (serve empty_service)
           (serve empty_service) (signed_in ["t1"]) alice (profile_with ["t1"]) "t2" true);
    [reflexivity | reflexivity | intros favs uid; reflexivity
    | intros p uid; reflexivity].
Defined.

Lemma toggleFavorite_again_in_same_render_witness :
  final (exec (serve empty_service) true (toggleFavorite (signed_in ["t1"]) "t2")
              (final (exec (serve empty_service) true
                           (toggleFavorite (signed_in ["t1"]) "t2") (signed_in ["t1"]))))
  = final (exec (serve empty_service) true
                (toggleFavorite (signed_in ["t1"]) "t2") (signed_in ["t1"])).
Proof.
  apply (toggleFavorite_again_in_same_render (serve empty_service)
           (signed_in ["t1"]) alice (profile_with ["t1"]) "t2");
    [reflexivity | reflexivity | intros favs uid; reflexivity].
Defined.

(** ** The effect under every interleaving *)

#[local] Arguments fetchUserProfile : simpl never.

Lemma fetch_like_tame (p : Pending) : fetch_like p -> tame p.
Proof.
  destruct p as [R c k]. intros H o w.
  destruct (H o w) as (x & Hst & Hm & Hs & Hin).
  unfold effect. rewrite Hst, Hm, Hs, Hin.
  split; [reflexivity|]. split; [reflexivity|]. split; [left; reflexivity|].
  split; [constructor|]. intros _. right. exists x. reflexivity.
Qed.

Lemma effect_refl (w : World) : effect w w.
Proof. unfold effect. repeat split; auto. constructor. Qed.

Lemma effect_onAuthStateChange (sess : option Session) (w : World) :
  effect w (advance (onAuthStateChange sess) w).
Proof.
  unfold onAuthStateChange. cbn. destruct (mounted w) eqn:Hm; cbn;
    [|apply effect_refl].
  destruct sess as [[tok [u|]]|]; cbn.
  - match goal with |- context [advance (fetchUserProfile ?i) ?w0] =>
      destruct (fetch_continuation_writes i w0) as (p & Hp & ->) end.
    unfold effect. cbn. rewrite Hm.
    split; [reflexivity|]. split; [reflexivity|]. split; [right; eauto|].
    split; [|discriminate].
    apply (change_session (store w) (Some {| access_token := tok; user := Some u |})).
  - unfold effect. cbn. rewrite Hm.
    split; [reflexivity|]. split; [reflexivity|]. split; [left; reflexivity|].
    split; [|discriminate].
    apply (change_signed_out (store w) (Some {| access_token := tok; user := None |})).
  - unfold effect. cbn. rewrite Hm.
    split; [reflexivity|]. split; [reflexivity|]. split; [left; reflexivity|].
    split; [|discriminate].
    apply (change_signed_out (store w) None).
Qed.

Lemma initial_request_tame (p : Pending) : p ∈ inflight mount -> tame p.
Proof.
  cbn. intros H. apply list_elem_of_singleton in H. subst p.
  intros o w. destruct o as [[sess [e|]]|e]; cbn.
  - destruct (mounted w) eqn:Hm; cbn; [|apply effect_refl].
    unfold effect. cbn. rewrite Hm.
    split; [reflexivity|]. split; [reflexivity|]. split; [left; reflexivity|].
    split; [constructor | discriminate].
  - destruct (mounted w) eqn:Hm; cbn; [|apply effect_refl].
    destruct sess as [[tok [u|]]|]; cbn.
    + match goal with |- context [advance (fetchUserProfile ?i) ?w0] =>
        destruct (fetch_continuation_writes i w0) as (p & Hp & ->) end.
      unfold effect. cbn. rewrite Hm.
      split; [reflexivity|]. split; [reflexivity|]. split; [right; eauto|].
      split; [|discriminate].
      apply (change_session (store w) (Some {| access_token := tok; user := Some u |})).
    + unfold effect. cbn. rewrite Hm.
      split; [reflexivity|]. split; [reflexivity|]. split; [left; reflexivity|].
      split; [|discriminate].
      apply (change_session_loading (store w)
               (Some {| access_token := tok; user := None |})).
    + unfold effect. cbn. rewrite Hm.
      split; [reflexivity|]. split; [reflexivity|]. split; [left; reflexivity|].
      split; [|discriminate].
      apply (change_session_loading (store w) None).
  - apply effect_refl.
Qed.

Lemma mount_tame : Forall tame (inflight mount).
Proof. apply Forall_forall. exact initial_request_tame. Qed.

(** One event, from a world whose calls in flight are all tame. *)
Lemma step_tame (w : World) (ev : Event) :
  Forall tame (inflight w) ->
  Forall tame (inflight (step w ev))
  /\ store_change (store w) (store (step w ev))
  /\ (mounted w = false ->
      mounted (step w ev) = false
      /\ (store (step w ev) = store w
          \/ exists x, store (step w ev)
                       = write (setLoading false) (write (setUserProfile x) (store w)))).
Proof.
  intros Ht.
  assert (Hgen : forall w0 w1,
             store w0 = store w -> mounted w0 = mounted w ->
             Forall tame (inflight w0) -> effect w0 w1 ->
             Forall tame (inflight w1)
             /\ store_change (store w) (store w1)
             /\ (mounted w = false ->
                 mounted w1 = false
                 /\ (store w1 = store w
                     \/ exists x, store w1
                          = write (setLoading false) (write (setUserProfile x) (store w))))).
  { intros w0 w1 Hst Hm Ht0 (Em & _ & Ein & Ech & Eun).
    rewrite Hst in Ech, Eun. rewrite Hm in Em, Eun. split; [|split].
    - destruct Ein as [-> | (p & Hp & ->)]; [exact Ht0|].
      apply Forall_app. split; [exact Ht0|].
      constructor; [apply fetch_like_tame, Hp | constructor].
    - exact Ech.
    - intros Hf. split; [congruence | auto]. }
  destruct ev as [sess | i remote |]; cbn.
  - destruct (subscribed w).
    + apply (Hgen w); auto. apply effect_onAuthStateChange.
    + apply (Hgen w); auto. apply effect_refl.
  - destruct (inflight w !! i) as [[R c k]|] eqn:Hi.
    + apply (Hgen (mkWorld (store w) (mounted w) (subscribed w)
                           (delete i (inflight w)) (journal w)));
        [reflexivity | reflexivity | |].
      * cbn. apply Forall_delete, Ht.
      * assert (Hp : tame (pending c k)).
        { eapply Forall_forall; [exact Ht|]. eapply list_elem_of_lookup_2, Hi. }
        apply Hp.
    + apply (Hgen w); auto. apply effect_refl.
  - split; [exact Ht|]. split; [constructor|]. auto.
Qed.

Lemma run_tame (tr : list Event) :
  forall w, Forall tame (inflight w) -> Forall tame (inflight (run tr w)).
Proof.
  induction tr as [|ev tr IH]; intros w Ht; [exact Ht|].
  apply IH, step_tame, Ht.
Qed.

Lemma run_app (tr1 tr2 : list Event) (w : World) :
  run (tr1 ++ tr2) w = run tr2 (run tr1 w).
Proof. apply foldl_app. Qed.

(** A property of the store that every [store_change] keeps holds along
    every run. *)
Lemma run_keeps (P : Store -> Prop) :
  (forall st st', store_change st st' -> P st -> P st') ->
  forall tr w, Forall tame (inflight w) -> P (store w) -> P (store (run tr w)).
Proof.
  intros HP. induction tr as [|ev tr IH]; intros w Ht Hw; [exact Hw|].
  destruct (step_tame w ev Ht) as (Ht' & Hch & _).
  apply IH; [exact Ht'|]. exact (HP _ _ Hch Hw).
Qed.

(** Whatever the order in which session changes are delivered, replies
    arrive and the cleanup runs, the cached user is the user of the cached
    session. *)
Theorem user_always_matches_session (tr : list Event) :
  user_matches_session (store (run tr mount)).
Proof.
  apply (run_keeps user_matches_session); [|apply mount_tame|reflexivity].
  intros st st' Hch H. unfold user_matches_session in *.
  destruct Hch; cbn; auto.
Qed.

(** Nothing sets [loading] back to true: once it is false it stays false
    along every continuation of the run, also while a later profile fetch is
    in flight. *)
Theorem loading_never_returns (tr1 tr2 : list Event) :
  loading (store (run tr1 mount)) = false ->
  loading (store (run (tr1 ++ tr2) mount)) = false.
Proof.
  intros H. rewrite run_app.
  apply (run_keeps (fun st => loading st = false)).
  - intros st st' Hch Hl. destruct Hch; cbn; auto.
  - apply run_tame, mount_tame.
  - exact H.
Qed.

Lemma loading_never_returns_witness :
  loading (store (run ([Settle 0 (serve empty_service)]
                       ++ [AuthStateChange (Some alice_session)]) mount)) = false.
Proof.
  apply (loading_never_returns [Settle 0 (serve empty_service)]
           [AuthStateChange (Some alice_session)]).
  reflexivity.
Defined.

Lemma run_unmounted (tr : list Event) :
  forall w, Forall tame (inflight w) -> mounted w = false ->
    mounted (run tr w) = false
    /\ currentUser (store (run tr w)) = currentUser (store w)
    /\ session (store (run tr w)) = session (store w).
Proof.
  induction tr as [|ev tr IH]; intros w Ht Hm; [auto|].
  destruct (step_tame w ev Ht) as (Ht' & _ & Hun).
  destruct (Hun Hm) as (Hm' & Hst).
  destruct (IH (step w ev) Ht' Hm') as (Hm2 & Hu & Hs).
  split; [exact Hm2|]. change (run (ev :: tr) w) with (run tr (step w ev)).
  rewrite Hu, Hs. destruct Hst as [-> | (x & ->)]; auto.
Qed.

(** After the cleanup of the effect, no event and no late reply changes the
    cached session or the cached user: the liveness flag does protect these
    two cells. *)
Theorem session_and_user_frozen_after_teardown (tr1 tr2 : list Event) :
  let w := step (run tr1 mount) Teardown in
  currentUser (store (run tr2 w)) = currentUser (store w)
  /\ session (store (run tr2 w)) = session (store w).
Proof.
  cbn zeta.
  apply (run_unmounted tr2 (step (run tr1 mount) Teardown)); [|reflexivity].
  cbn. apply run_tame, mount_tame.
Qed.

(** ** One session change, and the initial load *)

#[local] Arguments fetchUserProfile : clear simpl.

(** A session change delivered to a mounted, subscribed store with no call
    in flight, once its profile fetch (if any) has settled: the session and
    its user are cached, [loading] is false, and the profile is the row the
    select returned for that user, or null when there is no user, no row, an
    error or a rejection.  The store is the one the callback gives when run
    to completion. *)
Theorem session_change_settles
    (w : World) (sess : option Session) (remote : Remote) :
  quiescent w ->
  mounted w = true ->
  subscribed w = true ->
  let w' := run [AuthStateChange sess; Settle 0 remote] w in
  quiescent w'
  /\ session (store w') = sess
  /\ currentUser (store w') = sess ≫= user
  /\ loading (store w') = false
  /\ userProfile (store w')
     = match sess ≫= user with
       | None => None
       | Some u =>
           match remote _ (profiles_select_single (user_id u)) with
           | Fulfilled {| data := Some row; error := None |} => Some (profile_of_row row)
           | _ => None
           end
       end
  /\ store w' = final (exec remote true (onAuthStateChange sess) (store w)).
Proof.
  intros Hq Hm Hs. destruct w as [st m s inf j]. cbn in Hq, Hm, Hs.
  unfold quiescent in Hq. cbn in Hq. subst m s inf.
  unfold run, onAuthStateChange, fetchUserProfile. cbn.
  destruct sess as [[tok [u|]]|]; cbn; [|unfold quiescent; cbn; auto 10..].
  destruct (remote _ (profiles_select_single (user_id u))) as [[d [e|]]|e]; cbn.
  - destruct (decide (code e = "PGRST116")); cbn; destruct d;
      unfold quiescent; cbn; auto 10.
  - destruct d; unfold quiescent; cbn; auto 10.
  - unfold quiescent; cbn; auto 10.
Qed.

Lemma session_change_settles_witness :
  let w := run [Settle 0 (serve empty_service)] mount in
  let w' := run [AuthStateChange (Some alice_session); Settle 0 (serve alice_service)] w in
  quiescent w'
  /\ session (store w') = Some alice_session
  /\ currentUser (store w') = Some alice
  /\ loading (store w') = false
  /\ userProfile (store w') = Some (profile_with ["t1"; "t2"])
  /\ store w' = final (exec (serve alice_service) true
                           (onAuthStateChange (Some alice_session)) (store w)).
Proof.
  apply (session_change_settles (run [Settle 0 (serve empty_service)] mount)
           (Some alice_session) (serve alice_service)); reflexivity.
Defined.

(** The initial load, settled before any session change.  A rejected
    [getSession] promise writes nothing, so [loading] stays true; a reply
    with an error only clears [loading]; otherwise the session and its user
    are adopted, [loading] is cleared and the profile is what the select
    returned for that user (null when there is no user, no row, an error or
    a rejection). *)
Theorem initial_load_settles (remote0 remote1 : Remote) :
  let w := run [Settle 0 remote0; Settle 0 remote1] mount in
  quiescent w
  /\ match remote0 _ auth_getSession with
     | Rejected _ => store w = initial_store
     | Fulfilled {| session_error := Some _ |} =>
         store w = write (setLoading false) initial_store
     | Fulfilled {| reply_session := sess; session_error := None |} =>
         session (store w) = sess
         /\ currentUser (store w) = sess ≫= user
         /\ loading (store w) = false
         /\ userProfile (store w)
            = match sess ≫= user with
              | None => None
              | Some u =>
                  match remote1 _ (profiles_select_single (user_id u)) with
                  | Fulfilled {| data := Some row; error := None |} =>
                      Some (profile_of_row row)
                  | _ => None
                  end
              end
     end.
Proof.
  unfold run, mount, initializeAuth, fetchUserProfile. cbn.
  destruct (remote0 _ auth_getSession) as [[sess [e|]]|e]; cbn;
    [unfold quiescent; cbn; auto | | unfold quiescent; cbn; auto].
  destruct sess as [[tok [u|]]|]; cbn; [|unfold quiescent; cbn; auto 10..].
  destruct (remote1 _ (profiles_select_single (user_id u))) as [[d [e|]]|e]; cbn.
  - destruct (decide (code e = "PGRST116")); cbn; destruct d;
      unfold quiescent; cbn; auto 10.
  - destruct d; unfold quiescent; cbn; auto 10.
  - unfold quiescent; cbn; auto 10.
Qed.

(** When the cleanup runs before the initial [getSession] has settled, the
    store keeps its initial values for ever: whatever is delivered and
    whatever the remote answers afterwards, nothing is written. *)
Theorem teardown_before_initial_session_freezes_store (tr : list Event) :
  store (run tr (step mount Teardown)) = initial_store.
Proof.
  assert (Hinv : forall tr w,
             mounted w = false -> store w = initial_store ->
             inflight w = [] \/ inflight w = inflight mount ->
             store (run tr w) = initial_store).
  { clear tr. induction tr as [|ev tr IH]; intros w Hm Hst Hin; [exact Hst|].
    change (run (ev :: tr) w) with (run tr (step w ev)).
    destruct ev as [sess | i remote |].
    - unfold step. destruct (subscribed w).
      + rewrite (unmounted_callback_writes_nothing sess w Hm). auto.
      + auto.
    - destruct Hin as [Hin | Hin].
      + cbn. rewrite Hin. cbn. apply IH; auto.
      + destruct i as [|i].
        * destruct w as [st m s inf j]. cbn in Hm, Hst, Hin. subst m st inf.
          apply IH.
          -- cbn. destruct (remote _ auth_getSession) as [[sess [e|]]|e]; reflexivity.
          -- cbn. destruct (remote _ auth_getSession) as [[sess [e|]]|e]; reflexivity.
          -- left. cbn.
             destruct (remote _ auth_getSession) as [[sess [e|]]|e]; reflexivity.
        * cbn. rewrite Hin. cbn. apply IH; auto.
    - apply IH; auto. }
  apply Hinv; [reflexivity | reflexivity | right; reflexivity].
Qed.

(** The profile cached is the one of the reply that arrives last, not of the
    session change delivered last: when two sign-ins are delivered one after
    the other and the reply to the first select arrives after the reply to
    the second, the store ends with the second session and its user, and the
    profile that the first select returned. *)
Theorem last_reply_wins
    (w : World) (s1 s2 : Session) (u1 u2 : User) (remote1 remote2 : Remote) :
  quiescent w ->
  mounted w = true ->
  subscribed w = true ->
  user s1 = Some u1 ->
  user s2 = Some u2 ->
  let w' := run [AuthStateChange (Some s1); AuthStateChange (Some s2);
                 Settle 1 remote2; Settle 0 remote1] w in
  quiescent w'
  /\ session (store w') = Some s2
  /\ currentUser (store w') = Some u2
  /\ loading (store w') = false
  /\ userProfile (store w')
     = match remote1 _ (profiles_select_single (user_id u1)) with
       | Fulfilled {| data := Some row; error := None |} => Some (profile_of_row row)
       | _ => None
       end.
Proof.
  intros Hq Hm Hs H1 H2. destruct w as [st m s inf j]. cbn in Hq, Hm, Hs.
  unfold quiescent in Hq. cbn in Hq. subst m s inf.
  destruct s1 as [tok1 o1], s2 as [tok2 o2]. cbn in H1, H2. subst o1 o2.
  unfold run. cbn.
  destruct (remote2 _ (profiles_select_single (user_id u2))) as [[d2 [e2|]]|e2]; cbn;
    try destruct (decide (code e2 = "PGRST116")); cbn; try destruct d2; cbn;
    (destruct (remote1 _ (profiles_select_single (user_id u1))) as [[d1 [e1|]]|e1]; cbn;
     try destruct (decide (code e1 = "PGRST116")); cbn; try destruct d1;
     unfold quiescent; cbn; auto 10).
Qed.

Lemma last_reply_wins_witness :
  let w := run [Settle 0 (serve empty_service)] mount in
  let w' := run [AuthStateChange (Some alice_session); AuthStateChange (Some bob_session);
                 Settle 1 (serve empty_service); Settle 0 (serve alice_service)] w in
  quiescent w'
  /\ session (store w') = Some bob_session
  /\ currentUser (store w') = Some bob
  /\ loading (store w') = false
  /\ userProfile (store w') = Some (profile_with ["t1"; "t2"]).
Proof.
  apply (last_reply_wins (run [Settle 0 (serve empty_service)] mount)
           alice_session bob_session alice bob
           (serve alice_service) (serve empty_service)); reflexivity.
Defined.
